(** * The dual-eye scene lifecycle of vr-360-player

    A shallow embedding of [src/player/Entities/Scene.ts].  The scene is a
    coordination layer over the Marzipano rendering engine: it owns a pair
    of views, sources, texture stores and layers (one per eye) and one
    hotspot container, and mounts and unmounts its layers on the player's
    stage.

    The engine objects are kept in a store indexed by object identity, so
    that the references the scene, the stage and the tweens hold alias the
    same objects.  Every scene method is a computation in a state and
    exception monad over that store; a JavaScript [TypeError] raised by a
    property access on [undefined] or [null] keeps the effects performed
    before it. *)

From Stdlib Require Import PrimFloat.
From stdpp Require Import gmap strings list.

Set Default Proof Using "Type".

(** ** JavaScript values *)

(** A JavaScript [number] is an IEEE 754 binary64 float. *)
Abbreviation number := float.

Definition PI : number := 0x1.921fb54442d18p+1%float.

(** The value of an expression typed [string]: it may still be [undefined]
    or [null] at run time. *)
Inductive JsString :=
| js_undefined
| js_null
| js_string (s : string).

(** [ToBoolean]: the empty string, [undefined] and [null] are falsy. *)
Definition truthy (v : JsString) : bool :=
  match v with
  | js_string s => negb (String.eqb s "")
  | _ => false
  end.

(** [v + s] for a string [s]: [ToString v] followed by [s]. *)
Definition js_add (v : JsString) (s : string) : string :=
  match v with
  | js_undefined => "undefined" +:+ s
  | js_null => "null" +:+ s
  | js_string a => a +:+ s
  end.

(** What a JavaScript computation can end with, besides a value. *)
Inductive JsError :=
| TypeError
| SyntaxError.

(** How a computation ends: with a value, or with a thrown error. *)
Inductive Completion (A : Type) :=
| Normal (a : A)
| Throw (e : JsError).
Arguments Normal {A} _.
Arguments Throw {A} _.

Module Eye.
(** The type ['left' | 'right']. *)
Inductive t := left | right.

Definition to_string (e : t) : string :=
  match e with left => "left" | right => "right" end.
End Eye.

Module Vector4.
(** Modelled from the spec: [Math/Vector4] is not among the sources.  "A
    4-component vector (yaw, pitch, roll, field-of-view)"; the scene reads
    its first component as [x]. *)
Record t := mk { x : number; y : number; z : number; w : number }.

(** Modelled from the spec: [new Vector4(a, b)]; "a 2D offset (x,y) ...
    defaults to (0,0)", the components left out are taken to be 0. *)
Definition mk2 (a b : number) : t := mk a b 0 0.
End Vector4.

Module PairSet.
(** Modelled from the spec: [Utils/PairSet] is not among the sources.  "Two
    named ownership slots, primary and secondary"; a slot may be unset. *)
Record t (T : Type) := mk { primary : option T; secondary : option T }.
Arguments mk {T} _ _.
Arguments primary {T} _.
Arguments secondary {T} _.

(** [new PairSet()] *)
Definition empty {T} : t T := mk None None.

(** [new PairSet(a, b)] *)
Definition of_pair {T} (a b : T) : t T := mk (Some a) (Some b).

Definition set_primary {T} (v : T) (p : t T) : t T := mk (Some v) (secondary p).
Definition set_secondary {T} (v : T) (p : t T) : t T := mk (primary p) (Some v).

End PairSet.

(** ** The engine's objects *)

(** [RectilinearView.limit.traditional(maxResolution, maxVFov)] *)
Inductive Limiter :=
| traditional (maxResolution : number) (maxFov : number).

Definition PANORAMA_LIMITER : Limiter :=
  traditional 4096 (120 * PI / 180)%float.

Definition STEREOSCOPIC_LIMITER : Limiter :=
  traditional 4096 (90 * PI / 180)%float.

(** The [rect] effect of a layer: an object literal, so a key may be absent. *)
Record Rect := mkRect {
  relativeWidth : option number;
  relativeX : option number }.

(** A [RectilinearView]: what the scene's calls set on it. *)
Record View := mkView {
  limiter : Limiter;
  projectionCenterX : number;
  parameters : Vector4.t }.

(** An [ImageUrlSource.fromString(url, { cubeMapPreviewUrl })]. *)
Record Source := mkSource {
  tileUrl : string;
  cubeMapPreviewUrl : string }.

(** A [TextureStore(geometry, source, stage)]. *)
Record TextureStore := mkTextureStore {
  store_geometry : option nat;
  store_source : nat }.

(** A [Layer(stage, source, geometry, view, store, { effects: { rect } })]. *)
Record Layer := mkLayer {
  layer_source : nat;
  layer_geometry : option nat;
  layer_view : option nat;
  layer_textureStore : nat;
  effects_rect : Rect;
  firstLevelPinned : bool }.

(** The player context, as far as the scene reads it. *)
Inductive Mode :=
| PanoramaMode
| StereoscopicMode (dominantEye : Eye.t).

Record Player := mkPlayer {
  stagePath : JsString;
  mode : Mode }.

(** Functions of the caller, known by their identity only: calling one is
    recorded, and leaves the scene as it is.  Every call of one in the
    scene is the last statement of its method or closure, so a callback
    that calls back into the scene behaves as a later invocation. *)
Abbreviation Callback := nat.

(** The two pairs of closures the scene hands to [Marzipano.util.tween]. *)
Inductive TweenKind := attaching | detaching.

Inductive TweenStatus := Running | Cancelled | Finished.

(** Modelled from the spec: [Marzipano.util.tween] is the engine's.  "A
    timed-interpolation utility accepting (duration, perTickCallback,
    completionCallback) and returning a cancellation function"; a tween
    keeps the closures it was started with (the scene's closures differ by
    [tween_kind], [tween_transition] and [tween_done] only). *)
Record Tween := mkTween {
  tween_duration : option number;
  tween_kind : TweenKind;
  tween_transition : Callback;
  tween_done : option Callback;
  tween_status : TweenStatus }.

(** The closure [onAttach] passes to [setTimeout(..., 0)]. *)
Inductive Timer := resetViewParameters.

(** Modelled from the spec: the hotspot classes are not among the sources.
    "Each carrying a screen/3D anchor position and a renderable node
    reference"; [LinkHotspot] and [InfoHotspot] are read through [node] and
    [position] only. *)
Record Hotspot (Node Position : Type) := mkHotspot {
  node : Node;
  position : Position }.
Arguments mkHotspot {Node Position} _ _.
Arguments node {Node Position} _.
Arguments position {Node Position} _.

Module ISceneData.
(** The descriptor's [initialViewParameters]: [fromJSON] reads its [yaw]
    and [pitch]; [roll] and [fov] are keys a descriptor may carry besides. *)
Record ViewParameters := mkViewParameters {
  yaw : number;
  pitch : number;
  roll : option number;
  fov : option number }.

(** [interface ISceneData], over the descriptor types of [Level],
    [LinkHotspot] and [InfoHotspot]. *)
Record t (LevelData LinkData InfoData : Type) := mk {
  id : string;
  name : string;
  levels : list LevelData;
  faceSize : number;
  initialViewParameters : ViewParameters;
  linkHotspots : list LinkData;
  infoHotspots : list InfoData }.
Arguments mk {LevelData LinkData InfoData} _ _ _ _ _ _ _.
Arguments id {LevelData LinkData InfoData} _.
Arguments name {LevelData LinkData InfoData} _.
Arguments levels {LevelData LinkData InfoData} _.
Arguments faceSize {LevelData LinkData InfoData} _.
Arguments initialViewParameters {LevelData LinkData InfoData} _.
Arguments linkHotspots {LevelData LinkData InfoData} _.
Arguments infoHotspots {LevelData LinkData InfoData} _.
End ISceneData.

(** The layers of a stage without [l]; [None] ([undefined]) names no layer. *)
Definition without (l : option nat) (ls : list nat) : list nat :=
  filter (fun k => Some k <> l) ls.

(** An identity the store [m] does not use yet. *)
Definition unused {A} (m : gmap nat A) : nat := fresh (dom m).
Arguments unused : simpl never.

(** ** The scene and the world it runs in *)

Section SceneModel.

(** [Level] is opaque to the scene ("forwarded to the geometry builder");
    [Node] and [Position] are what a hotspot hands to the engine. *)
Context {Level Node Position : Type}.

(** [FS.path] of [Utils/FS], which is not among the sources. *)
Variable FS_path : JsString -> JsString.

(** A [CubeGeometry(levels)]. *)
Record Geometry := mkGeometry {
  geometry_levels : list Level }.

(** A [HotspotContainer(..., view, ..., { rect })]. *)
Record HotspotContainer := mkHotspotContainer {
  container_view : option nat;
  container_rect : Rect;
  visible : bool;
  hotspots : list (Node * Position) }.

(** The private fields of [Scene].  The descriptor fields are set once by
    [fromJSON]; a resource field is [None] while it is [undefined] or
    [null]. *)
Record Scene := mkScene {
  _id : string;
  _name : string;
  _levels : list Level;
  _faceSize : number;
  _initialViewParameters : Vector4.t;
  _linkHotspots : list (Hotspot Node Position);
  _infoHotspots : list (Hotspot Node Position);
  _player : Player;
  _geometry : option nat;
  _projectionCenter : option Vector4.t;
  _views : option (PairSet.t nat);
  _hotspotContainer : option nat;
  _sources : option (PairSet.t nat);
  _textureStores : option (PairSet.t nat);
  _layers : option (PairSet.t nat);
  _cancelTweening : option nat }.

(** The calls the scene makes on the engine and on its caller's callbacks,
    in the order they are made. *)
Inductive Call :=
| view_setLimiter (v : nat) (l : Limiter)
| view_setProjectionCenterX (v : nat) (x : number)
| view_setParameters (v : nat) (p : Vector4.t)
| view_destroy (v : nat)
| layer_setEffects (l : nat) (r : Rect)
| layer_pinFirstLevel (l : nat)
| layer_destroy (l : nat)
| store_destroy (s : nat)
| container_createHotspot (c : nat) (n : Node) (p : Position)
| container_setRect (c : nat) (r : Rect)
| container_update (c : nat)
| container_show (c : nat)
| container_hide (c : nat)
| container_destroy (c : nat)
| stage_addLayer (l : option nat)
| stage_removeLayer (l : option nat)
| tween_start (h : nat)
| tween_cancel (h : nat)
| tween_complete (h : nat)
| call_transition (f : Callback) (val : number)
| call_done (f : Callback).

(** The scene [this], the engine's objects by identity, the layers mounted
    on the player's stage (bottom first), the event loop's pending timers
    and tweens, and the calls made so far. *)
Record World := mkWorld {
  this : Scene;
  geometries : gmap nat Geometry;
  views : gmap nat View;
  sources : gmap nat Source;
  textureStores : gmap nat TextureStore;
  layers : gmap nat Layer;
  containers : gmap nat HotspotContainer;
  stage : list nat;
  timers : list Timer;
  tweens : gmap nat Tween;
  calls : list Call }.

(** *** Field updates

    An update takes the record apart and builds it anew with one field
    changed. *)

Definition set_geometry (v : option nat) (s : Scene) : Scene :=
  match s with
  | mkScene i n lv fs ivp lh ih p g pc vw hc sr tx ly ct =>
      mkScene i n lv fs ivp lh ih p v pc vw hc sr tx ly ct
  end.

Definition set_projectionCenter_field (v : option Vector4.t) (s : Scene) : Scene :=
  match s with
  | mkScene i n lv fs ivp lh ih p g pc vw hc sr tx ly ct =>
      mkScene i n lv fs ivp lh ih p g v vw hc sr tx ly ct
  end.

Definition set_views (v : option (PairSet.t nat)) (s : Scene) : Scene :=
  match s with
  | mkScene i n lv fs ivp lh ih p g pc vw hc sr tx ly ct =>
      mkScene i n lv fs ivp lh ih p g pc v hc sr tx ly ct
  end.

Definition set_hotspotContainer (v : option nat) (s : Scene) : Scene :=
  match s with
  | mkScene i n lv fs ivp lh ih p g pc vw hc sr tx ly ct =>
      mkScene i n lv fs ivp lh ih p g pc vw v sr tx ly ct
  end.

Definition set_sources (v : option (PairSet.t nat)) (s : Scene) : Scene :=
  match s with
  | mkScene i n lv fs ivp lh ih p g pc vw hc sr tx ly ct =>
      mkScene i n lv fs ivp lh ih p g pc vw hc v tx ly ct
  end.

Definition set_textureStores (v : option (PairSet.t nat)) (s : Scene) : Scene :=
  match s with
  | mkScene i n lv fs ivp lh ih p g pc vw hc sr tx ly ct =>
      mkScene i n lv fs ivp lh ih p g pc vw hc sr v ly ct
  end.

Definition set_layers (v : option (PairSet.t nat)) (s : Scene) : Scene :=
  match s with
  | mkScene i n lv fs ivp lh ih p g pc vw hc sr tx ly ct =>
      mkScene i n lv fs ivp lh ih p g pc vw hc sr tx v ct
  end.

Definition set_cancelTweening (v : option nat) (s : Scene) : Scene :=
  match s with
  | mkScene i n lv fs ivp lh ih p g pc vw hc sr tx ly ct =>
      mkScene i n lv fs ivp lh ih p g pc vw hc sr tx ly v
  end.

Definition set_player (v : Player) (s : Scene) : Scene :=
  match s with
  | mkScene i n lv fs ivp lh ih p g pc vw hc sr tx ly ct =>
      mkScene i n lv fs ivp lh ih v g pc vw hc sr tx ly ct
  end.

Definition upd_this (f : Scene -> Scene) (st : World) : World :=
  match st with
  | mkWorld sc gs vs ss ts ls cs sg tm tw cl =>
      mkWorld (f sc) gs vs ss ts ls cs sg tm tw cl
  end.

Definition upd_geometries (f : gmap nat Geometry -> gmap nat Geometry) (st : World) : World :=
  match st with
  | mkWorld sc gs vs ss ts ls cs sg tm tw cl =>
      mkWorld sc (f gs) vs ss ts ls cs sg tm tw cl
  end.

Definition upd_views (f : gmap nat View -> gmap nat View) (st : World) : World :=
  match st with
  | mkWorld sc gs vs ss ts ls cs sg tm tw cl =>
      mkWorld sc gs (f vs) ss ts ls cs sg tm tw cl
  end.

Definition upd_sources (f : gmap nat Source -> gmap nat Source) (st : World) : World :=
  match st with
  | mkWorld sc gs vs ss ts ls cs sg tm tw cl =>
      mkWorld sc gs vs (f ss) ts ls cs sg tm tw cl
  end.

Definition upd_textureStores (f : gmap nat TextureStore -> gmap nat TextureStore)
    (st : World) : World :=
  match st with
  | mkWorld sc gs vs ss ts ls cs sg tm tw cl =>
      mkWorld sc gs vs ss (f ts) ls cs sg tm tw cl
  end.

Definition upd_layers (f : gmap nat Layer -> gmap nat Layer) (st : World) : World :=
  match st with
  | mkWorld sc gs vs ss ts ls cs sg tm tw cl =>
      mkWorld sc gs vs ss ts (f ls) cs sg tm tw cl
  end.

Definition upd_containers (f : gmap nat HotspotContainer -> gmap nat HotspotContainer)
    (st : World) : World :=
  match st with
  | mkWorld sc gs vs ss ts ls cs sg tm tw cl =>
      mkWorld sc gs vs ss ts ls (f cs) sg tm tw cl
  end.

Definition upd_stage (f : list nat -> list nat) (st : World) : World :=
  match st with
  | mkWorld sc gs vs ss ts ls cs sg tm tw cl =>
      mkWorld sc gs vs ss ts ls cs (f sg) tm tw cl
  end.

Definition upd_timers (f : list Timer -> list Timer) (st : World) : World :=
  match st with
  | mkWorld sc gs vs ss ts ls cs sg tm tw cl =>
      mkWorld sc gs vs ss ts ls cs sg (f tm) tw cl
  end.

Definition upd_tweens (f : gmap nat Tween -> gmap nat Tween) (st : World) : World :=
  match st with
  | mkWorld sc gs vs ss ts ls cs sg tm tw cl =>
      mkWorld sc gs vs ss ts ls cs sg tm (f tw) cl
  end.

Definition upd_calls (f : list Call -> list Call) (st : World) : World :=
  match st with
  | mkWorld sc gs vs ss ts ls cs sg tm tw cl =>
      mkWorld sc gs vs ss ts ls cs sg tm tw (f cl)
  end.

(** ** Computations *)

Definition M (A : Type) : Type := World -> Completion A * World.

Definition ret {A} (a : A) : M A := fun st => (Normal a, st).

Definition bind {A B} (m : M A) (k : A -> M B) : M B :=
  fun st =>
    match m st with
    | (Normal a, st') => k a st'
    | (Throw e, st') => (Throw e, st')
    end.

Definition throw {A} (e : JsError) : M A := fun st => (Throw e, st).

Definition gets {A} (f : World -> A) : M A := fun st => (Normal (f st), st).

Definition modify (f : World -> World) : M unit := fun st => (Normal tt, f st).

Declare Scope js_scope.
Delimit Scope js_scope with js.
Notation "x <- m ;; k" := (bind m (fun x => k))
  (at level 100, m at next level, k at level 200, right associativity) : js_scope.
Notation "m ;; k" := (bind m (fun _ => k))
  (at level 100, k at level 200, right associativity) : js_scope.
Local Open Scope js_scope.

(** Reading a property of [o], or calling a method on it: a [TypeError]
    when [o] is [undefined] or [null]. *)
Definition deref {A} (o : option A) : M A :=
  match o with
  | Some a => ret a
  | None => throw TypeError
  end.

Definition record (c : Call) : M unit :=
  modify (upd_calls (fun l => l ++ [c])).

(** [xs.forEach(f)] *)
Fixpoint forEach {A} (f : A -> M unit) (xs : list A) : M unit :=
  match xs with
  | [] => ret tt
  | a :: xs' => f a ;; forEach f xs'
  end.

(** Modelled from the spec: [PairSet.pair(op)] "applies op to each occupied
    slot, in slot order (primary then secondary), skipping unset slots"; a
    failure of [op] "aborts remaining application". *)
Definition pair {T} (op : T -> M unit) (p : PairSet.t T) : M unit :=
  match PairSet.primary p with
  | Some a => op a
  | None => ret tt
  end ;;
  match PairSet.secondary p with
  | Some b => op b
  | None => ret tt
  end.

(** ** The engine's interface

    Each constructor allocates an object under an identity not in use; each
    method records its call and updates the attribute it sets.  The engine
    is the scene's collaborator: its rendering is not modelled. *)

Definition CubeGeometry_new (levels : list Level) : M nat :=
  g <- gets (fun st => unused (geometries st)) ;;
  modify (upd_geometries (insert g (mkGeometry levels))) ;;
  ret g.

(** A new view's projection center is the engine's default, 0. *)
Definition RectilinearView_new (params : Vector4.t) (l : Limiter) : M nat :=
  v <- gets (fun st => unused (views st)) ;;
  modify (upd_views (insert v (mkView l 0 params))) ;;
  ret v.

Definition View_setLimiter (v : nat) (l : Limiter) : M unit :=
  record (view_setLimiter v l) ;;
  modify (upd_views (alter (fun o => mkView l (projectionCenterX o) (parameters o)) v)).

Definition View_setProjectionCenterX (v : nat) (x : number) : M unit :=
  record (view_setProjectionCenterX v x) ;;
  modify (upd_views (alter (fun o => mkView (limiter o) x (parameters o)) v)).

Definition View_setParameters (v : nat) (p : Vector4.t) : M unit :=
  record (view_setParameters v p) ;;
  modify (upd_views (alter (fun o => mkView (limiter o) (projectionCenterX o) p) v)).

Definition View_destroy (v : nat) : M unit := record (view_destroy v).

Definition ImageUrlSource_fromString (url preview : string) : M nat :=
  s <- gets (fun st => unused (sources st)) ;;
  modify (upd_sources (insert s (mkSource url preview))) ;;
  ret s.

Definition TextureStore_new (geometry : option nat) (source : nat) : M nat :=
  t <- gets (fun st => unused (textureStores st)) ;;
  modify (upd_textureStores (insert t (mkTextureStore geometry source))) ;;
  ret t.

Definition TextureStore_destroy (t : nat) : M unit := record (store_destroy t).

Definition Layer_new (source : nat) (geometry view : option nat) (store : nat)
    (rect : Rect) : M nat :=
  l <- gets (fun st => unused (layers st)) ;;
  modify (upd_layers (insert l (mkLayer source geometry view store rect false))) ;;
  ret l.

Definition Layer_pinFirstLevel (l : nat) : M unit :=
  record (layer_pinFirstLevel l) ;;
  modify (upd_layers (alter (fun o =>
    mkLayer (layer_source o) (layer_geometry o) (layer_view o) (layer_textureStore o)
      (effects_rect o) true) l)).

(** [layer.effects().rect].  An identity that names no layer of the store
    comes from no constructor; reading through one ends in a [TypeError]. *)
Definition Layer_effects_rect (l : nat) : M Rect :=
  o <- gets (fun st => layers st !! l) ;;
  deref (effects_rect <$> o).

(** [layer.setEffects({ rect })] replaces the effects. *)
Definition Layer_setEffects (l : nat) (rect : Rect) : M unit :=
  record (layer_setEffects l rect) ;;
  modify (upd_layers (alter (fun o =>
    mkLayer (layer_source o) (layer_geometry o) (layer_view o) (layer_textureStore o)
      rect (firstLevelPinned o)) l)).

Definition Layer_destroy (l : nat) : M unit := record (layer_destroy l).

(** A new container is visible, and holds no hotspot. *)
Definition HotspotContainer_new (view : option nat) (rect : Rect) : M nat :=
  c <- gets (fun st => unused (containers st)) ;;
  modify (upd_containers (insert c (mkHotspotContainer view rect true []))) ;;
  ret c.

Definition HotspotContainer_createHotspot (c : nat) (n : Node) (p : Position) : M unit :=
  record (container_createHotspot c n p) ;;
  modify (upd_containers (alter (fun o =>
    mkHotspotContainer (container_view o) (container_rect o) (visible o)
      (hotspots o ++ [(n, p)])) c)).

Definition HotspotContainer_setRect (c : nat) (rect : Rect) : M unit :=
  record (container_setRect c rect) ;;
  modify (upd_containers (alter (fun o =>
    mkHotspotContainer (container_view o) rect (visible o) (hotspots o)) c)).

Definition HotspotContainer_update (c : nat) : M unit := record (container_update c).

Definition set_visible (b : bool) (o : HotspotContainer) : HotspotContainer :=
  mkHotspotContainer (container_view o) (container_rect o) b (hotspots o).

Definition HotspotContainer_show (c : nat) : M unit :=
  record (container_show c) ;;
  modify (upd_containers (alter (set_visible true) c)).

Definition HotspotContainer_hide (c : nat) : M unit :=
  record (container_hide c) ;;
  modify (upd_containers (alter (set_visible false) c)).

Definition HotspotContainer_destroy (c : nat) : M unit := record (container_destroy c).

(** The stage keeps its layers in a list; a layer is added on top.  An
    unset slot handed to the stage ([undefined]) names no layer.  A layer
    added while it is mounted is listed once more, and removing a layer
    takes every listing of it away: what is proved of the mounted layers
    below is stated for the states the lifecycle calls [onAttach] and
    [onDetatch] in, where a layer is listed once at most. *)
Definition Stage_addLayer (l : option nat) : M unit :=
  record (stage_addLayer l) ;;
  modify (upd_stage (fun ls => ls ++ option_list l)).

Definition Stage_removeLayer (l : option nat) : M unit :=
  record (stage_removeLayer l) ;;
  modify (upd_stage (without l)).

Definition Stage_hasLayer (l : option nat) : M bool :=
  gets (fun st => match l with
                  | Some k => bool_decide (k ∈ stage st)
                  | None => false
                  end).

(** [setTimeout(f, 0)]: [f] runs in a later turn of the event loop. *)
Definition setTimeout (f : Timer) : M unit :=
  modify (upd_timers (fun ts => ts ++ [f])).

(** Modelled from the spec: [Marzipano.util.tween(duration, update, done)]
    starts "a new timed interpolation"; the cancellation function it
    returns is the new tween's identity. *)
Definition tween (duration : option number) (kind : TweenKind)
    (transition : Callback) (done : option Callback) : M nat :=
  h <- gets (fun st => unused (tweens st)) ;;
  modify (upd_tweens (insert h (mkTween duration kind transition done Running))) ;;
  record (tween_start h) ;;
  ret h.

Definition set_status (s : TweenStatus) (o : Tween) : Tween :=
  mkTween (tween_duration o) (tween_kind o) (tween_transition o) (tween_done o) s.

(** Modelled from the spec: "cancelling mid-transition stops further
    transition(value, scene) invocations"; a tween that is over stays so. *)
Definition cancel_status (o : Tween) : Tween :=
  match tween_status o with
  | Running => set_status Cancelled o
  | _ => o
  end.

Definition cancel (h : nat) : M unit :=
  record (tween_cancel h) ;;
  modify (upd_tweens (alter cancel_status h)).

(** ** The scene's methods *)

(** [this._views], [this._layers], ... as the receiver of a property
    access. *)
Definition this_views : M (PairSet.t nat) :=
  o <- gets (fun st => _views (this st)) ;; deref o.

Definition this_layers : M (PairSet.t nat) :=
  o <- gets (fun st => _layers (this st)) ;; deref o.

Definition this_sources : M (PairSet.t nat) :=
  o <- gets (fun st => _sources (this st)) ;; deref o.

Definition this_textureStores : M (PairSet.t nat) :=
  o <- gets (fun st => _textureStores (this st)) ;; deref o.

(** [this._views.primary] and its like as the receiver of a method call. *)
Definition views_primary : M nat :=
  p <- this_views ;; deref (PairSet.primary p).

Definition views_secondary : M nat :=
  p <- this_views ;; deref (PairSet.secondary p).

Definition layers_primary : M nat :=
  p <- this_layers ;; deref (PairSet.primary p).

Definition layers_secondary : M nat :=
  p <- this_layers ;; deref (PairSet.secondary p).

Definition hotspotContainer : M nat :=
  o <- gets (fun st => _hotspotContainer (this st)) ;; deref o.

(** [if (typeof done === 'function') done();] *)
Definition call_if_function (done : option Callback) : M unit :=
  match done with
  | Some f => record (call_done f)
  | None => ret tt
  end.

(** [get projectionCenter] *)
Definition get_projectionCenter (st : World) : option Vector4.t :=
  _projectionCenter (this st).

(** [set projectionCenter] *)
Definition set_projectionCenter (center : Vector4.t) : M unit :=
  v <- views_primary ;;
  View_setProjectionCenterX v (Vector4.x center) ;;
  v <- views_secondary ;;
  View_setProjectionCenterX v (- Vector4.x center)%float.

(** [set eye] *)
Definition set_eye (eye : Eye.t) : M unit :=
  match eye with
  | Eye.left =>
      c <- hotspotContainer ;;
      l <- layers_primary ;;
      r <- Layer_effects_rect l ;;
      HotspotContainer_setRect c r
  | Eye.right =>
      c <- hotspotContainer ;;
      l <- layers_secondary ;;
      r <- Layer_effects_rect l ;;
      HotspotContainer_setRect c r
  end ;;
  c <- hotspotContainer ;;
  HotspotContainer_update c.

(** The base path of the tile sources: [path ? 'assets/tiles' : path + 'tiles']
    for [path = FS.path(this._player.stagePath)]. *)
Definition basePath (stagePath : JsString) : string :=
  let path := FS_path stagePath in
  if truthy path then "assets/tiles" else js_add path "tiles".

(** [createLayer(stage, view, eye, rect)] *)
Definition createLayer (view : option nat) (eye : Eye.t) (rect : Rect) : M unit :=
  path <- gets (fun st => basePath (stagePath (_player (this st)))) ;;
  id <- gets (fun st => _id (this st)) ;;
  source <- ImageUrlSource_fromString
    (path +:+ "/" +:+ id +:+ "/" +:+ Eye.to_string eye +:+ "/{z}/{f}/{y}/{x}.jpg")
    (path +:+ "/" +:+ id +:+ "/" +:+ Eye.to_string eye +:+ "/preview.jpg") ;;
  geometry <- gets (fun st => _geometry (this st)) ;;
  store <- TextureStore_new geometry source ;;
  geometry <- gets (fun st => _geometry (this st)) ;;
  layer <- Layer_new source geometry view store rect ;;
  Layer_pinFirstLevel layer ;;
  match eye with
  | Eye.left =>
      p <- this_sources ;;
      modify (upd_this (set_sources (Some (PairSet.set_primary source p)))) ;;
      p <- this_textureStores ;;
      modify (upd_this (set_textureStores (Some (PairSet.set_primary store p)))) ;;
      p <- this_layers ;;
      modify (upd_this (set_layers (Some (PairSet.set_primary layer p))))
  | Eye.right =>
      p <- this_sources ;;
      modify (upd_this (set_sources (Some (PairSet.set_secondary source p)))) ;;
      p <- this_textureStores ;;
      modify (upd_this (set_textureStores (Some (PairSet.set_secondary store p)))) ;;
      p <- this_layers ;;
      modify (upd_this (set_layers (Some (PairSet.set_secondary layer p))))
  end.

Definition createHotspot (hotspot : Hotspot Node Position) : M unit :=
  c <- hotspotContainer ;;
  HotspotContainer_createHotspot c (node hotspot) (position hotspot).

(** [onCreate()] *)
Definition onCreate : M bool :=
  levels <- gets (fun st => _levels (this st)) ;;
  g <- CubeGeometry_new levels ;;
  modify (upd_this (set_geometry (Some g))) ;;
  modify (upd_this (set_projectionCenter_field (Some (Vector4.mk2 0 0)))) ;;
  params <- gets (fun st => _initialViewParameters (this st)) ;;
  v1 <- RectilinearView_new params PANORAMA_LIMITER ;;
  params <- gets (fun st => _initialViewParameters (this st)) ;;
  v2 <- RectilinearView_new params STEREOSCOPIC_LIMITER ;;
  modify (upd_this (set_views (Some (PairSet.of_pair v1 v2)))) ;;
  p <- this_views ;;
  createLayer (PairSet.primary p) Eye.left (mkRect (Some 0.5%float) (Some 0%float)) ;;
  p <- this_views ;;
  createLayer (PairSet.secondary p) Eye.right (mkRect (Some 0.5%float) (Some 0.5%float)) ;;
  p <- this_views ;;
  l <- layers_primary ;;
  r <- Layer_effects_rect l ;;
  c <- HotspotContainer_new (PairSet.primary p) r ;;
  modify (upd_this (set_hotspotContainer (Some c))) ;;
  hs <- gets (fun st => _linkHotspots (this st)) ;;
  forEach createHotspot hs ;;
  hs <- gets (fun st => _infoHotspots (this st)) ;;
  forEach createHotspot hs ;;
  ret true.

(** The block both [onAttach] and [onDetatch] start a transition with:
    [if (this._cancelTweening) { this._cancelTweening();
    this._cancelTweening = null; }] *)
Definition cancelOngoing : M unit :=
  h <- gets (fun st => _cancelTweening (this st)) ;;
  match h with
  | Some h =>
      cancel h ;;
      modify (upd_this (set_cancelTweening None))
  | None => ret tt
  end.

(** [this._cancelTweening = Marzipano.util.tween(duration, ..., ...)] *)
Definition startTweening (duration : option number) (kind : TweenKind)
    (transition : Callback) (done : option Callback) : M unit :=
  h <- tween duration kind transition done ;;
  modify (upd_this (set_cancelTweening (Some h))).

(** The first part of [onAttach], up to the [setTimeout]: the layout the
    mode asks for, the layers put on the stage, and the reset of the view
    parameters left to a later turn. *)
Definition mount : M unit :=
  m <- gets (fun st => mode (_player (this st))) ;;
  match m with
  | PanoramaMode =>
      v <- views_primary ;;
      View_setLimiter v PANORAMA_LIMITER ;;
      v <- views_primary ;;
      View_setProjectionCenterX v 0 ;;
      v <- views_secondary ;;
      View_setProjectionCenterX v 0 ;;
      l <- layers_primary ;;
      Layer_setEffects l (mkRect (Some 1%float) None) ;;
      set_eye Eye.left
  | StereoscopicMode dominantEye =>
      v <- views_primary ;;
      View_setLimiter v STEREOSCOPIC_LIMITER ;;
      v <- views_primary ;;
      c <- gets get_projectionCenter ;;
      c <- deref c ;;
      View_setProjectionCenterX v (Vector4.x c) ;;
      l <- layers_primary ;;
      Layer_setEffects l (mkRect (Some 0.5%float) None) ;;
      set_eye dominantEye ;;
      p <- this_layers ;;
      Stage_addLayer (PairSet.secondary p)
  end ;;
  p <- this_layers ;;
  Stage_addLayer (PairSet.primary p) ;;
  setTimeout resetViewParameters.

(** [onAttach(transition?, duration?, done?)] *)
Definition onAttach (transition : option Callback) (duration : option number)
    (done : option Callback) : M unit :=
  mount ;;
  match transition with
  | None =>
      c <- hotspotContainer ;;
      HotspotContainer_show c ;;
      call_if_function done
  | Some transition =>
      cancelOngoing ;;
      startTweening duration attaching transition done
  end.

(** What [onDetatch] does at once without a transition, and when the
    interpolation completes with one. *)
Definition unmount (done : option Callback) : M unit :=
  c <- hotspotContainer ;;
  HotspotContainer_hide c ;;
  p <- this_layers ;;
  Stage_removeLayer (PairSet.primary p) ;;
  p <- this_layers ;;
  b <- Stage_hasLayer (PairSet.secondary p) ;;
  (if b : bool
   then p <- this_layers ;; Stage_removeLayer (PairSet.secondary p)
   else ret tt) ;;
  call_if_function done.

(** [onDetatch(transition?, duration?, done?)] *)
Definition onDetatch (transition : option Callback) (duration : option number)
    (done : option Callback) : M unit :=
  match transition with
  | None => unmount done
  | Some transition =>
      cancelOngoing ;;
      startTweening duration detaching transition done
  end.

(** The method that starts a transition of a kind, and what it does before
    it turns to the transition. *)
Definition transit (kind : TweenKind) :
    option Callback -> option number -> option Callback -> M unit :=
  match kind with
  | attaching => onAttach
  | detaching => onDetatch
  end.

Definition before (kind : TweenKind) : M unit :=
  match kind with
  | attaching => mount
  | detaching => ret tt
  end.

Definition onResume : M unit := ret tt.
Definition onResize : M unit := ret tt.
Definition onPause : M unit := ret tt.

(** [onDestroy()] *)
Definition onDestroy : M unit :=
  p <- this_textureStores ;;
  pair TextureStore_destroy p ;;
  p <- this_views ;;
  pair View_destroy p ;;
  p <- this_layers ;;
  pair Layer_destroy p ;;
  c <- hotspotContainer ;;
  HotspotContainer_destroy c ;;
  modify (upd_this (set_geometry None)) ;;
  modify (upd_this (set_views None)) ;;
  modify (upd_this (set_sources None)) ;;
  modify (upd_this (set_textureStores None)) ;;
  modify (upd_this (set_layers None)) ;;
  modify (upd_this (set_hotspotContainer None)).

(** ** The event loop *)

(** The closure of [onAttach]'s [setTimeout]. *)
Definition run_timer (t : Timer) : M unit :=
  match t with
  | resetViewParameters =>
      v <- views_primary ;;
      params <- gets (fun st => _initialViewParameters (this st)) ;;
      View_setParameters v params ;;
      v <- views_secondary ;;
      params <- gets (fun st => _initialViewParameters (this st)) ;;
      View_setParameters v params
  end.

(** A tick of a tween: [(val) => { transition(val, this); }] *)
Definition tween_update (o : Tween) (val : number) : M unit :=
  record (call_transition (tween_transition o) val).

(** The completion closure of a tween. *)
Definition tween_done_closure (o : Tween) : M unit :=
  modify (upd_this (set_cancelTweening None)) ;;
  match tween_kind o with
  | attaching =>
      c <- hotspotContainer ;;
      HotspotContainer_show c ;;
      call_if_function (tween_done o)
  | detaching => unmount (tween_done o)
  end.

(** Modelled from the spec: "on completion" the tween is over and its
    completion callback runs. *)
Definition tween_finish (h : nat) (o : Tween) : M unit :=
  modify (upd_tweens (alter (set_status Finished) h)) ;;
  record (tween_complete h) ;;
  tween_done_closure o.

(** What the scene manager and the engine's event loop do to the world:
    a call of a lifecycle method or of a setter, a timer that fires, a tick
    or the completion of a tween that is still running, or a change of the
    player's mode. *)
Inductive Invocation :=
| call_onCreate
| call_onAttach (transition : option Callback) (duration : option number)
    (done : option Callback)
| call_onResume
| call_onResize
| call_onDetatch (transition : option Callback) (duration : option number)
    (done : option Callback)
| call_onPause
| call_onDestroy
| call_set_projectionCenter (center : Vector4.t)
| call_set_eye (eye : Eye.t).

Definition invoke (i : Invocation) : M unit :=
  match i with
  | call_onCreate => onCreate ;; ret tt
  | call_onAttach transition duration done => onAttach transition duration done
  | call_onResume => onResume
  | call_onResize => onResize
  | call_onDetatch transition duration done => onDetatch transition duration done
  | call_onPause => onPause
  | call_onDestroy => onDestroy
  | call_set_projectionCenter center => set_projectionCenter center
  | call_set_eye eye => set_eye eye
  end.

Inductive step : World -> World -> Prop :=
| step_invoke i st :
    step st (snd (invoke i st))
| step_timer t ts st :
    timers st = t :: ts ->
    step st (snd (run_timer t (upd_timers (fun _ => ts) st)))
| step_tick h o val st :
    tweens st !! h = Some o -> tween_status o = Running ->
    step st (snd (tween_update o val st))
| step_finish h o st :
    tweens st !! h = Some o -> tween_status o = Running ->
    step st (snd (tween_finish h o st))
| step_mode m st :
    step st (upd_this (set_player (mkPlayer (stagePath (_player (this st))) m)) st).

(** ** Deserialization *)

Section Deserialization.

Context {LevelData LinkData InfoData : Type}.

(** [Level.fromJSON], [LinkHotspot.fromJSON] and [InfoHotspot.fromJSON],
    which are not among the sources. *)
Variable Level_fromJSON : LevelData -> Level.
Variable LinkHotspot_fromJSON : Player -> LinkData -> Hotspot Node Position.
Variable InfoHotspot_fromJSON : Player -> InfoData -> Hotspot Node Position.

(** [json: ISceneData | string] *)
Inductive JsonInput :=
| json_object (value : ISceneData.t LevelData LinkData InfoData)
| json_string (text : string).

(** The [else] branch of [fromJSON]: the fields [Object.assign] copies, and
    the three empty pair sets [Scene.apply(scene)] (the constructor, run on
    the new object with no player argument) adds. *)
Definition fromJSON_object (player : Player)
    (json : ISceneData.t LevelData LinkData InfoData) : Scene :=
  mkScene
    (ISceneData.id json)
    (ISceneData.name json)
    (map Level_fromJSON (ISceneData.levels json))
    (ISceneData.faceSize json)
    (Vector4.mk (ISceneData.yaw (ISceneData.initialViewParameters json))
       (ISceneData.pitch (ISceneData.initialViewParameters json)) 0 90)
    (map (LinkHotspot_fromJSON player) (ISceneData.linkHotspots json))
    (map (InfoHotspot_fromJSON player) (ISceneData.infoHotspots json))
    player
    None None None None
    (Some PairSet.empty) (Some PairSet.empty) (Some PairSet.empty)
    None.

(** A value of type [any], as [JSON.parse] builds it from a text: the
    properties of an object are listed once each, in the order the reviver
    visits them.  [j_scene] is a [Scene] the reviver has put in the place
    of a property. *)
#[warnings="-register-all"] Inductive Json :=
| j_null
| j_bool (b : bool)
| j_number (x : number)
| j_string (s : string)
| j_array (items : list Json)
| j_object (properties : list (string * Json))
| j_scene (scene : Scene).

(** The value [JSON.parse] reads off a text, before any reviver runs
    ([None]: it throws a [SyntaxError]); and a value that has what the
    [else] branch reads, taken as the [ISceneData] the signature of
    [fromJSON] says it is (a cast: nothing is checked or converted). *)
Variable JSON_parse : string -> option Json.
Variable as_ISceneData : Json -> ISceneData.t LevelData LinkData InfoData.

(** [object[key]]: [None] is [undefined]. *)
Fixpoint get (key : string) (properties : list (string * Json)) : option Json :=
  match properties with
  | [] => None
  | (k, v) :: rest => if String.eqb k key then Some v else get key rest
  end.

(** [v.map(f)] is a call of a function for an array only: on every other
    value, [undefined] and [null] among them, it is a [TypeError]. *)
Definition has_map (v : option Json) : bool :=
  match v with
  | Some (j_array _) => true
  | _ => false
  end.

(** [v.yaw] can be read (as [undefined], maybe) unless [v] is [undefined]
    or [null]. *)
Definition has_properties (v : option Json) : bool :=
  match v with
  | None | Some j_null => false
  | Some _ => true
  end.

(** Whether the [else] branch gets through its reads of [json].  Of the
    values it can be handed only an object has a [levels] to call [map]
    on: a number, a boolean, an array and a [Scene] have none, and reading
    a property of [null] fails. *)
Definition readable (json : Json) : bool :=
  match json with
  | j_object properties =>
      has_map (get "levels" properties)
      && has_properties (get "initialViewParameters" properties)
      && has_map (get "linkHotspots" properties)
      && has_map (get "infoHotspots" properties)
  | _ => false
  end.

(** The [else] branch on a value of type [any]. *)
Definition fromJSON_any (player : Player) (json : Json) : Completion Scene :=
  if readable json
  then Normal (fromJSON_object player (as_ISceneData json))
  else Throw TypeError.

(** A computation of the parser: [None] when the calls of [JSON.parse],
    one inside the reviver of another, exceed the depth it is given. *)
Definition Revived (A : Type) : Type := option (Completion A).

(** The reviver [(key, value) => !key ? Scene.fromJSON(player, value) :
    value], for [enter] the call [Scene.fromJSON(player, _)]: the empty
    string is the one key that is falsy. *)
Definition reviver (enter : Json -> Revived Scene) (key : string) (value : Json) :
    Revived Json :=
  if String.eqb key ""
  then match enter value with
       | Some (Normal scene) => Some (Normal (j_scene scene))
       | Some (Throw e) => Some (Throw e)
       | None => None
       end
  else Some (Normal value).

(** What [JSON.parse] does to a value before it hands it to the reviver:
    the properties of an object and the elements of an array are gone
    through in order, each first treated in this way itself and then
    replaced by what the reviver returns for it.  The keys of an array are
    its indices, none of them empty. *)
Fixpoint internalize (enter : Json -> Revived Scene) (val : Json) : Revived Json :=
  match val with
  | j_array items =>
      match
        (fix elements (items : list Json) : Revived (list Json) :=
           match items with
           | [] => Some (Normal [])
           | x :: rest =>
               match internalize enter x with
               | Some (Normal x') =>
                   match elements rest with
                   | Some (Normal rest') => Some (Normal (x' :: rest'))
                   | Some (Throw e) => Some (Throw e)
                   | None => None
                   end
               | Some (Throw e) => Some (Throw e)
               | None => None
               end
           end) items
      with
      | Some (Normal items') => Some (Normal (j_array items'))
      | Some (Throw e) => Some (Throw e)
      | None => None
      end
  | j_object properties =>
      match
        (fix members (properties : list (string * Json)) :
             Revived (list (string * Json)) :=
           match properties with
           | [] => Some (Normal [])
           | (key, x) :: rest =>
               match internalize enter x with
               | Some (Normal x') =>
                   match reviver enter key x' with
                   | Some (Normal x'') =>
                       match members rest with
                       | Some (Normal rest') => Some (Normal ((key, x'') :: rest'))
                       | Some (Throw e) => Some (Throw e)
                       | None => None
                       end
                   | Some (Throw e) => Some (Throw e)
                   | None => None
                   end
               | Some (Throw e) => Some (Throw e)
               | None => None
               end
           end) properties
      with
      | Some (Normal properties') => Some (Normal (j_object properties'))
      | Some (Throw e) => Some (Throw e)
      | None => None
      end
  | _ => Some (Normal val)
  end.

(** [Scene.fromJSON(player, json)] for a [json] of type [any].  A string is
    parsed with the reviver: the parsed root is internalized, which enters
    [Scene.fromJSON] for every property named by the empty string, at any
    depth, and then the reviver's call for the root itself, under the empty
    key, enters it for the root.  Any other value goes to the [else]
    branch. *)
Fixpoint fromJSON_value (depth : nat) (player : Player) (json : Json) : Revived Scene :=
  match json with
  | j_string text =>
      match depth with
      | 0 => None
      | S depth' =>
          match JSON_parse text with
          | None => Some (Throw SyntaxError)
          | Some root =>
              match internalize (fromJSON_value depth' player) root with
              | Some (Normal root') => fromJSON_value depth' player root'
              | Some (Throw e) => Some (Throw e)
              | None => None
              end
          end
      end
  | _ => Some (fromJSON_any player json)
  end.

(** [static fromJSON(player, json)] *)
Definition fromJSON (depth : nat) (player : Player) (json : JsonInput) : Revived Scene :=
  match json with
  | json_string text => fromJSON_value depth player (j_string text)
  | json_object value => Some (Normal (fromJSON_object player value))
  end.

End Deserialization.

(** The world a scene starts in: no engine object of its own, nothing
    mounted, nothing pending. *)
Definition initial (scene : Scene) : World :=
  mkWorld scene ∅ ∅ ∅ ∅ ∅ ∅ [] [] ∅ [].

(** ** The states of a scene *)

(** The engine objects a created scene owns. *)
Record Owned := mkOwned {
  geometry_of : nat;
  view1 : nat;
  view2 : nat;
  source1 : nat;
  source2 : nat;
  store1 : nat;
  store2 : nat;
  layer1 : nat;
  layer2 : nat;
  container_of : nat }.

(** [Created]: the scene's fields hold the objects [own], the two views and
    the two layers are different objects, and the engine knows them. *)
Record created (st : World) (own : Owned) : Prop := mkCreated {
  created_geometry : _geometry (this st) = Some (geometry_of own);
  created_center : is_Some (_projectionCenter (this st));
  created_views : _views (this st) = Some (PairSet.of_pair (view1 own) (view2 own));
  created_sources : _sources (this st) = Some (PairSet.of_pair (source1 own) (source2 own));
  created_stores : _textureStores (this st) = Some (PairSet.of_pair (store1 own) (store2 own));
  created_layers : _layers (this st) = Some (PairSet.of_pair (layer1 own) (layer2 own));
  created_container : _hotspotContainer (this st) = Some (container_of own);
  created_views_differ : view1 own <> view2 own;
  created_layers_differ : layer1 own <> layer2 own;
  created_view1 : is_Some (views st !! view1 own);
  created_view2 : is_Some (views st !! view2 own);
  created_layer1 : is_Some (layers st !! layer1 own);
  created_layer2 : is_Some (layers st !! layer2 own);
  created_in_container : is_Some (containers st !! container_of own) }.

(** [Created] and [Detached]: created, with neither layer on the stage.
    This is the state [onAttach] is called in. *)
Definition detached (st : World) (own : Owned) : Prop :=
  created st own /\ (layer1 own ∉ stage st) /\ (layer2 own ∉ stage st).

(** [Attached]: created, with the primary layer on the stage.  This is the
    state [onDetatch] is called in. *)
Definition attached (st : World) (own : Owned) : Prop :=
  created st own /\ layer1 own ∈ stage st.

(** [Uninitialized]: as [fromJSON] leaves the scene. *)
Definition uninitialized (scene : Scene) : Prop :=
  _sources scene = Some PairSet.empty /\
  _textureStores scene = Some PairSet.empty /\
  _layers scene = Some PairSet.empty.

(** A tween is in flight while it is running. *)
Definition in_flight (st : World) (h : nat) : Prop :=
  exists o, tweens st !! h = Some o /\ tween_status o = Running.

(** No tween is in flight. *)
Definition idle (st : World) : Prop := forall h, ~ in_flight st h.



(** How often the completion closure of tween [h] was run. *)
Definition is_completion (h : nat) (c : Call) : bool :=
  match c with
  | tween_complete k => Nat.eqb k h
  | _ => false
  end.

Definition completions (h : nat) (cs : list Call) : nat :=
  length (List.filter (is_completion h) cs).

(** What unmounting does to the world, whether [onDetatch] does it at once
    or the completion of its transition does: the stage loses the primary
    layer, and the secondary one if it holds it; the calls made are
    [hide], [removeLayer(primary)], [removeLayer(secondary)] only if the
    stage had the secondary layer, and [done]; the hotspot container is
    hidden; every other engine object is as it was. *)
Definition detaches (own : Owned) (done : option Callback) (st st' : World) : Prop :=
  stage st' =
    (if bool_decide (layer2 own ∈ stage st)
     then without (Some (layer2 own)) (without (Some (layer1 own)) (stage st))
     else without (Some (layer1 own)) (stage st))
  /\ (layer1 own ∉ stage st')
  /\ (layer2 own ∉ stage st')
  /\ calls st' =
       calls st ++
       container_hide (container_of own) :: stage_removeLayer (Some (layer1 own)) ::
       (if bool_decide (layer2 own ∈ stage st)
        then [stage_removeLayer (Some (layer2 own))] else []) ++
       (call_done <$> option_list done)
  /\ containers st' = alter (set_visible false) (container_of own) (containers st)
  /\ geometries st' = geometries st
  /\ views st' = views st
  /\ sources st' = sources st
  /\ textureStores st' = textureStores st
  /\ layers st' = layers st.

(** * Properties *)

(** ** Computations that keep a relation *)

(** [m] takes every world to one related to it by [R], however it ends. *)
Definition respects (R : relation World) {A} (m : M A) : Prop :=
  forall st, R st (snd (m st)).

Section Respects.
Context (R : relation World) {HR : PreOrder R}.

Lemma respects_ret {A} (a : A) : respects R (ret a).
Proof using HR. intros st. reflexivity. Qed.

Lemma respects_throw {A} (e : JsError) : respects R (@throw A e).
Proof using HR. intros st. reflexivity. Qed.

Lemma respects_gets {A} (f : World -> A) : respects R (gets f).
Proof using HR. intros st. reflexivity. Qed.

Lemma respects_deref {A} (o : option A) : respects R (deref o).
Proof using HR. destruct o; [apply respects_ret | apply respects_throw]. Qed.

Lemma respects_modify (f : World -> World) :
  (forall st, R st (f st)) -> respects R (modify f).
Proof. intros Hf st. apply Hf. Qed.

Lemma respects_bind {A B} (m : M A) (k : A -> M B) :
  respects R m -> (forall a, respects R (k a)) -> respects R (bind m k).
Proof using HR.
  intros Hm Hk st. unfold bind.
  specialize (Hm st). destruct (m st) as [[a|e] st1]; simpl in *.
  - transitivity st1; [exact Hm | apply Hk].
  - exact Hm.
Qed.

Lemma respects_forEach {A} (f : A -> M unit) (xs : list A) :
  (forall a, respects R (f a)) -> respects R (forEach f xs).
Proof using HR.
  intros Hf. induction xs as [|a xs IH]; simpl.
  - apply respects_ret.
  - apply respects_bind; [apply Hf | intros _; exact IH].
Qed.

End Respects.

(** Evaluates the scene's computations, and nothing of the stores. *)
Ltac js_eval :=
  lazy beta iota zeta delta
    [ invoke onCreate createLayer onAttach onDetatch mount unmount transit before
      onDestroy onResume onResize onPause set_projectionCenter set_eye
      cancelOngoing startTweening run_timer tween_update tween_done_closure
      tween_finish pair call_if_function hotspotContainer views_primary
      views_secondary layers_primary layers_secondary this_views this_layers
      this_sources this_textureStores CubeGeometry_new RectilinearView_new
      View_setLimiter View_setProjectionCenterX View_setParameters View_destroy
      ImageUrlSource_fromString TextureStore_new TextureStore_destroy Layer_new
      Layer_pinFirstLevel Layer_effects_rect Layer_setEffects Layer_destroy
      HotspotContainer_new HotspotContainer_createHotspot HotspotContainer_setRect
      HotspotContainer_update HotspotContainer_show HotspotContainer_hide
      HotspotContainer_destroy Stage_addLayer Stage_removeLayer Stage_hasLayer
      setTimeout tween cancel record get_projectionCenter
      bind gets deref modify ret throw
      upd_this upd_geometries upd_views upd_sources upd_textureStores upd_layers
      upd_containers upd_stage upd_timers upd_tweens upd_calls
      set_geometry set_projectionCenter_field set_views set_hotspotContainer
      set_sources set_textureStores set_layers set_cancelTweening set_player
      this geometries views sources textureStores layers containers stage timers
      tweens calls
      _id _name _levels _faceSize _initialViewParameters _linkHotspots
      _infoHotspots _player _geometry _projectionCenter _views _hotspotContainer
      _sources _textureStores _layers _cancelTweening
      PairSet.primary PairSet.secondary PairSet.empty PairSet.of_pair
      PairSet.set_primary PairSet.set_secondary
      geometry_of view1 view2 source1 source2 store1 store2 layer1 layer2
      container_of
      fmap option_fmap option_map option_list fst snd mode stagePath
      Eye.to_string ].

(** The same in a hypothesis. *)
Ltac js_eval_in H :=
  lazy beta iota zeta delta
    [ this geometries views sources textureStores layers containers stage timers
      tweens calls
      _id _name _levels _faceSize _initialViewParameters _linkHotspots
      _infoHotspots _player _geometry _projectionCenter _views _hotspotContainer
      _sources _textureStores _layers _cancelTweening
      PairSet.of_pair geometry_of view1 view2 source1 source2 store1 store2
      layer1 layer2 container_of ] in H.

(** Walks a computation down to its [modify] steps, which [leaf] settles. *)
Ltac respects_walk leaf :=
  repeat first
    [ match goal with
      | |- PreOrder _ => typeclasses eauto
      | |- forall _, respects _ _ => intros ?
      | |- respects _ (match ?x with _ => _ end) => destruct x
      end
    | apply respects_ret
    | apply respects_throw
    | apply respects_gets
    | apply respects_deref
    | apply respects_forEach
    | apply respects_modify; leaf
    | apply respects_bind ].

(** The scene's own fields are as they were. *)
Definition same_scene : relation World := fun st st' => this st' = this st.

#[local] Instance same_scene_preorder : PreOrder same_scene.
Proof.
  split; [intros st; reflexivity|].
  intros a b c Hab Hbc. unfold same_scene in *. congruence.
Qed.

Lemma set_projectionCenter_same_scene (center : Vector4.t) :
  respects same_scene (set_projectionCenter center).
Proof.
  unfold set_projectionCenter, views_primary, views_secondary, this_views,
    View_setProjectionCenterX, record.
  respects_walk ltac:(intros []; reflexivity).
Qed.

(** A call that sets a view's projection-center x-offset. *)
Definition sets_offset (c : Call) : bool :=
  match c with
  | view_setProjectionCenterX _ _ => true
  | _ => false
  end.

Lemma offset_keeps_limiter (vs : gmap nat View) (v k : nat) (x : number) :
  limiter <$> alter (fun o => mkView (limiter o) x (parameters o)) v vs !! k
  = limiter <$> vs !! k.
Proof.
  destruct (decide (v = k)) as [->|Hne].
  - rewrite lookup_alter_eq. destruct (vs !! k); reflexivity.
  - rewrite lookup_alter_ne by exact Hne. reflexivity.
Qed.

Lemma offset_keeps_parameters (vs : gmap nat View) (v k : nat) (x : number) :
  parameters <$> alter (fun o => mkView (limiter o) x (parameters o)) v vs !! k
  = parameters <$> vs !! k.
Proof.
  destruct (decide (v = k)) as [->|Hne].
  - rewrite lookup_alter_eq. destruct (vs !! k); reflexivity.
  - rewrite lookup_alter_ne by exact Hne. reflexivity.
Qed.

(** C9: assigning [projectionCenter] changes the projection-center
    x-offsets of the scene's views and nothing else, whatever the new
    center is and whether the assignment returns or throws.  No field of
    the scene changes, so the stored [_projectionCenter] is as before and
    the getter returns what it returned before the assignment.  The
    engine's geometries, sources, texture stores, layers and hotspot
    containers, the stage, the timers and the tweens are as before.  Of
    the views, every one keeps its limiter and its parameters, and one that
    is neither the primary nor the secondary view of the scene is as it
    was.  The calls made are [setProjectionCenterX] calls only. *)
Theorem projectionCenter_setter_keeps_stored_center (st : World) (center : Vector4.t) :
  exists r st',
    set_projectionCenter center st = (r, st')
    /\ _projectionCenter (this st') = _projectionCenter (this st)
    /\ get_projectionCenter st' = get_projectionCenter st
    /\ this st' = this st
    /\ geometries st' = geometries st
    /\ sources st' = sources st
    /\ textureStores st' = textureStores st
    /\ layers st' = layers st
    /\ containers st' = containers st
    /\ stage st' = stage st
    /\ timers st' = timers st
    /\ tweens st' = tweens st
    /\ (forall k, limiter <$> views st' !! k = limiter <$> views st !! k)
    /\ (forall k, parameters <$> views st' !! k = parameters <$> views st !! k)
    /\ (forall k,
          (forall p, _views (this st) = Some p ->
                     PairSet.primary p <> Some k /\ PairSet.secondary p <> Some k) ->
          views st' !! k = views st !! k)
    /\ (exists cs, calls st' = calls st ++ cs /\ forallb sets_offset cs = true).
Proof.
  destruct st as [[i n lv fs ivp lh ih p g pc vw hc sr tx ly ct] gs vs ss ts ls cs sg tm tw cl].
  unfold get_projectionCenter.
  destruct vw as [[[v1|] [v2|]]|];
    (eexists; eexists; split; [js_eval; reflexivity|]);
    cbn [this geometries views sources textureStores layers containers stage timers
         tweens calls _projectionCenter _views PairSet.primary PairSet.secondary];
    do 11 (split; [reflexivity|]);
    (split; [intros k; rewrite ?offset_keeps_limiter; reflexivity|]);
    (split; [intros k; rewrite ?offset_keeps_parameters; reflexivity|]);
    (split;
     [intros k Hk; try reflexivity;
      destruct (Hk _ eq_refl) as [Hk1 Hk2]; cbn in Hk1, Hk2;
      rewrite ?lookup_alter_ne by congruence; reflexivity|]);
    rewrite <- ?app_assoc; eexists; split;
    first [reflexivity | symmetry; apply app_nil_r].
Qed.

(** Takes a created world apart: its fields become the values [created]
    names. *)
Ltac created_cases st own Hc :=
  destruct st as [[i n lv fs ivp lh ih p g pc vw hc sr tx ly ct] gs vs ss ts ls cs sg tm tw cl];
  destruct own as [og ov1 ov2 os1 os2 ot1 ot2 ol1 ol2 oc];
  destruct Hc as [Hg [pc' Hpc] Hvs Hss Hts Hls Hhc Hvne Hlne
                  [o1 Ho1] [o2 Ho2] [l1 Hl1] [l2 Hl2] [hc' Hhc']];
  js_eval_in Hg; js_eval_in Hpc; js_eval_in Hvs; js_eval_in Hss; js_eval_in Hts;
  js_eval_in Hls; js_eval_in Hhc; js_eval_in Hvne; js_eval_in Hlne;
  js_eval_in Ho1; js_eval_in Ho2; js_eval_in Hl1; js_eval_in Hl2; js_eval_in Hhc';
  subst.

Ltac js_rewrite :=
  match goal with
  | H : _ !! _ = Some _ |- _ => rewrite H
  | |- _ => rewrite lookup_alter_eq
  | |- _ => rewrite lookup_alter_ne by congruence
  | |- _ => rewrite lookup_insert_eq
  | |- _ => rewrite lookup_insert_ne by congruence
  end.

(** Runs a computation: evaluates, and looks up what the evaluation waits
    for. *)
Ltac js_run := js_eval; repeat (js_rewrite; js_eval).

(** Settles [exists cs, l ++ new = l ++ cs ++ last] for a list [new] that
    is written out: [cs] is [new] without its last calls. *)
Ltac calls_split :=
  rewrite <- ?app_assoc; simpl;
  match goal with
  | |- exists cs, _ ++ ?new = _ ++ cs ++ ?last =>
      let n := eval compute in (length new - length last) in
      exists (firstn n new); reflexivity
  end.

(** C3: on a created scene, assigning [projectionCenter] with horizontal
    component [x] succeeds and leaves the primary view's projection-center
    x-offset at [x] and the secondary view's at [-x], for every number [x]. *)
Theorem projectionCenter_setter_mirrors_x (st : World) (own : Owned)
    (center : Vector4.t) :
  created st own ->
  exists st',
    set_projectionCenter center st = (Normal tt, st')
    /\ projectionCenterX <$> views st' !! view1 own = Some (Vector4.x center)
    /\ projectionCenterX <$> views st' !! view2 own = Some (- Vector4.x center)%float.
Proof.
  intros Hc. created_cases st own Hc. js_run.
  eexists. split; [reflexivity|]. split; js_run; reflexivity.
Qed.

(** C5: on a scene in [Created] or [Detached] state, [onAttach] without a
    transition returns normally having shown the hotspot container and then
    called [done] (when it is a function) as its last two calls, and starts
    no tween: the tweens and the stored cancellation function are as
    before. *)
Theorem onAttach_without_transition_is_synchronous (st : World) (own : Owned)
    (duration : option number) (done : option Callback) :
  detached st own ->
  exists st',
    onAttach None duration done st = (Normal tt, st')
    /\ (exists cs, calls st' = calls st ++ cs ++
           container_show (container_of own) :: (call_done <$> option_list done))
    /\ visible <$> containers st' !! container_of own = Some true
    /\ tweens st' = tweens st
    /\ _cancelTweening (this st') = _cancelTweening (this st).
Proof.
  intros (Hc & _ & _). created_cases st own Hc.
  destruct p as [path [|[]]]; destruct done as [f|]; js_run;
    (eexists; split; [reflexivity|]); js_eval;
    (split; [calls_split|]);
    (split; [js_run; reflexivity|]);
    split; reflexivity.
Qed.

(** C4: on a scene in [Created] or [Detached] state, [onAttach] returns
    normally, with or without a transition.  In stereoscopic mode it has put the secondary and then the
    primary layer on the stage.  In panorama mode it has put the primary
    layer alone on the stage, the primary layer's rectangle is
    [{ relativeWidth: 1 }], both views' projection-center x-offsets are 0,
    and the hotspot container is bound to the primary layer's rectangle
    (the eye is [left]). *)
Theorem onAttach_mounts_by_mode (st : World) (own : Owned)
    (transition : option Callback) (duration : option number)
    (done : option Callback) :
  detached st own ->
  exists st',
    onAttach transition duration done st = (Normal tt, st')
    /\ match mode (_player (this st)) with
       | StereoscopicMode _ =>
           stage st' = stage st ++ [layer2 own; layer1 own]
       | PanoramaMode =>
           stage st' = stage st ++ [layer1 own]
           /\ effects_rect <$> layers st' !! layer1 own
              = Some (mkRect (Some 1%float) None)
           /\ projectionCenterX <$> views st' !! view1 own = Some 0%float
           /\ projectionCenterX <$> views st' !! view2 own = Some 0%float
           /\ container_rect <$> containers st' !! container_of own
              = Some (mkRect (Some 1%float) None)
       end.
Proof.
  intros (Hc & _ & _). created_cases st own Hc.
  destruct p as [path [|[]]]; destruct transition as [t|];
    try destruct done as [f|]; try destruct ct as [h|]; js_run;
    (eexists; split; [reflexivity|]); js_eval;
    rewrite <- ?app_assoc; try reflexivity;
    repeat split; js_run; reflexivity.
Qed.

Lemma elem_of_without (l : option nat) (ls : list nat) (k : nat) :
  k ∈ without l ls <-> Some k <> l /\ k ∈ ls.
Proof. unfold without. exact (list_elem_of_filter (fun k => Some k <> l) ls k). Qed.

Lemma has_after_removing_other (l1 l2 : nat) (ls : list nat) :
  l1 <> l2 ->
  bool_decide (l2 ∈ without (Some l1) ls) = bool_decide (l2 ∈ ls).
Proof.
  intros Hne. apply bool_decide_ext. rewrite elem_of_without.
  split; [intros [_ Hin]; exact Hin | intros Hin; split; [congruence | exact Hin]].
Qed.

(** The shared body of the two ways of detaching. *)
Lemma unmount_detaches (st : World) (own : Owned) (done : option Callback) :
  created st own ->
  exists st',
    unmount done st = (Normal tt, st')
    /\ detaches own done st st'
    /\ this st' = this st /\ tweens st' = tweens st /\ timers st' = timers st.
Proof.
  intros Hc. created_cases st own Hc. js_run.
  rewrite (has_after_removing_other _ _ _ Hlne).
  unfold detaches. js_eval.
  destruct (bool_decide (ol2 ∈ sg)) eqn:Hin; destruct done as [f|]; js_run;
    (eexists; split; [reflexivity|]); js_eval;
    rewrite <- ?app_assoc;
    repeat split; try reflexivity;
    rewrite ?elem_of_without; try (intros [Hk _]; congruence);
    try (intros [_ [Hk _]]; congruence).
  all: apply bool_decide_eq_false_1 in Hin; intros [_ Hk]; contradiction.
Qed.

(** C8: on a created scene [onDestroy] returns normally; the calls it makes
    are, in this order, [destroy] on the primary and the secondary texture
    store, on the primary and the secondary view, on the primary and the
    secondary layer, and on the hotspot container; afterwards the geometry,
    views, sources, texture stores, layers and hotspot container fields are
    all null. *)
Theorem onDestroy_releases_in_order (st : World) (own : Owned) :
  created st own ->
  exists st',
    onDestroy st = (Normal tt, st')
    /\ calls st' = calls st ++
         [ store_destroy (store1 own); store_destroy (store2 own);
           view_destroy (view1 own); view_destroy (view2 own);
           layer_destroy (layer1 own); layer_destroy (layer2 own);
           container_destroy (container_of own) ]
    /\ _geometry (this st') = None
    /\ _views (this st') = None
    /\ _sources (this st') = None
    /\ _textureStores (this st') = None
    /\ _layers (this st') = None
    /\ _hotspotContainer (this st') = None.
Proof.
  intros Hc. created_cases st own Hc. js_run.
  eexists. split; [reflexivity|]. js_eval.
  rewrite <- !app_assoc. repeat split; reflexivity.
Qed.

Lemma unused_None {A} (m : gmap nat A) : m !! unused m = None.
Proof. apply not_elem_of_dom. unfold unused. apply is_fresh. Qed.

Lemma unused_ne {A} (m : gmap nat A) (k : nat) : is_Some (m !! k) -> unused m <> k.
Proof. intros [a Ha] Heq. rewrite <- Heq, unused_None in Ha. discriminate. Qed.

(** Creating the hotspots of a list: it succeeds once the container is
    there, and touches the container and the calls only. *)
Lemma forEach_createHotspot_runs (hs : list (Hotspot Node Position)) :
  forall (st : World) (c : nat),
    _hotspotContainer (this st) = Some c ->
    exists st',
      forEach createHotspot hs st = (Normal tt, st')
      /\ this st' = this st
      /\ geometries st' = geometries st
      /\ views st' = views st
      /\ sources st' = sources st
      /\ textureStores st' = textureStores st
      /\ layers st' = layers st
      /\ stage st' = stage st
      /\ (forall k, is_Some (containers st !! k) -> is_Some (containers st' !! k)).
Proof.
  induction hs as [|a hs IH]; intros st c Hc.
  - exists st. repeat split; auto.
  - destruct st as [[] ? ? ? ? ? ? ? ? ? ?]. js_eval_in Hc. subst.
    cbn [forEach]. unfold bind at 1, createHotspot at 1. js_eval.
    edestruct IH as (st' & Hrun & Hthis & Hg & Hv & Hs & Ht & Hl & Hst & Hk);
      [ | exists st'; split; [exact Hrun|] ]; [reflexivity|].
    repeat split; try assumption.
    intros k Hsome. apply Hk. js_eval. rewrite lookup_alter_is_Some. exact Hsome.
Qed.

(** A scene as [fromJSON] leaves it can be created: [onCreate] returns
    [true], the scene is [created], and the views of the engine are the
    ones it had and the scene's two new ones. *)
Lemma onCreate_runs (st : World) :
  uninitialized (this st) ->
  exists st' own,
    onCreate st = (Normal true, st')
    /\ created st' own
    /\ views st !! view1 own = None
    /\ views st !! view2 own = None
    /\ views st' =
         <[view2 own := mkView STEREOSCOPIC_LIMITER 0 (_initialViewParameters (this st))]>
           (<[view1 own := mkView PANORAMA_LIMITER 0 (_initialViewParameters (this st))]>
              (views st)).
Proof.
  intros (Hs & Ht & Hl).
  destruct st as [[i n lv fs ivp lh ih p g pc vw hc sr tx ly ct] gs vs ss ts ls cs sg tm tw cl].
  js_eval_in Hs. js_eval_in Ht. js_eval_in Hl. subst.
  destruct p as [path m]. js_eval.
  set (g' := unused gs).
  set (v1 := unused vs).
  set (V1 := <[v1 := _]> vs).
  set (v2 := unused V1).
  set (s1 := unused ss).
  set (S1 := <[s1 := _]> ss).
  set (s2 := unused S1).
  set (t1 := unused ts).
  set (T1 := <[t1 := _]> ts).
  set (t2 := unused T1).
  set (l1 := unused ls).
  set (L1 := alter _ l1 (<[l1 := _]> ls)).
  set (l2 := unused L1).
  assert (Hl1 : exists x, L1 !! l1 = Some x
                /\ effects_rect x = mkRect (Some 0.5%float) (Some 0%float))
    by (subst L1; rewrite lookup_alter_eq, lookup_insert_eq; simpl; eauto).
  destruct Hl1 as (x1 & Hl1 & Hrect).
  assert (Hl12 : l2 <> l1) by (apply unused_ne; eauto).
  assert (Hv1 : vs !! v1 = None) by apply unused_None.
  assert (Hv2 : V1 !! v2 = None) by apply unused_None.
  assert (Hv12 : v2 <> v1)
    by (apply unused_ne; subst V1; rewrite lookup_insert_eq; eauto).
  assert (Hv2' : vs !! v2 = None)
    by (subst V1; apply lookup_insert_None in Hv2; tauto).
  clearbody L1 l2 l1 v2 v1 g' s1 S1 s2 t1 T1 t2.
  rewrite lookup_alter_ne, lookup_insert_ne, Hl1 by exact Hl12.
  js_eval. rewrite Hrect.
  set (c := unused cs). clearbody c.
  match goal with
  | |- context [forEach createHotspot lh ?W] =>
      destruct (forEach_createHotspot_runs lh W c eq_refl)
        as (st1 & Hrun1 & Hthis1 & Hg1 & Hvw1 & Hs1 & Ht1 & Hly1 & Hst1 & Hk1)
  end.
  rewrite Hrun1.
  destruct st1 as [sc1 gs1 vs1 ss1 ts1 ls1 cs1 sg1 tm1 tw1 cl1].
  js_eval_in Hthis1. js_eval_in Hvw1. js_eval_in Hly1. js_eval_in Hk1. subst.
  js_eval.
  match goal with
  | |- context [forEach createHotspot ih ?W] =>
      destruct (forEach_createHotspot_runs ih W c eq_refl)
        as (st2 & Hrun2 & Hthis2 & Hg2 & Hvw2 & Hs2 & Ht2 & Hly2 & Hst2 & Hk2)
  end.
  rewrite Hrun2.
  destruct st2 as [sc2 gs2 vs2 ss2 ts2 ls2 cs2 sg2 tm2 tw2 cl2].
  js_eval_in Hthis2. js_eval_in Hvw2. js_eval_in Hly2. js_eval_in Hk2. subst.
  eexists. exists (mkOwned g' v1 v2 s1 s2 t1 t2 l1 l2 c).
  split; [reflexivity|]. js_eval.
  split; [|split; [exact Hv1 | split; [exact Hv2' | reflexivity]]].
  split; js_eval; try reflexivity; try congruence; eauto.
  - subst V1. rewrite lookup_insert_ne by exact Hv12.
    rewrite lookup_insert_eq. eauto.
  - rewrite lookup_insert_eq. eauto.
  - rewrite lookup_alter_ne, lookup_insert_ne, Hl1 by exact Hl12. eauto.
  - rewrite lookup_alter_eq, lookup_insert_eq. eauto.
  - apply Hk2, Hk1. rewrite lookup_insert_eq. eauto.
Qed.




(** C1, as amended: on a scene as [fromJSON] leaves it, [onCreate] returns
    [true] and builds exactly two views, both new to the engine and both
    with the scene's [initialViewParameters]; the primary view gets the
    panorama limiter and the secondary view the stereoscopic limiter. *)
Theorem onCreate_builds_two_views (st : World) :
  uninitialized (this st) ->
  exists st' v1 v2,
    onCreate st = (Normal true, st')
    /\ _views (this st') = Some (PairSet.of_pair v1 v2)
    /\ v1 <> v2
    /\ views st !! v1 = None
    /\ views st !! v2 = None
    /\ views st' =
         <[v2 := mkView STEREOSCOPIC_LIMITER 0 (_initialViewParameters (this st))]>
           (<[v1 := mkView PANORAMA_LIMITER 0 (_initialViewParameters (this st))]>
              (views st))
    /\ views st' !! v1 = Some (mkView PANORAMA_LIMITER 0 (_initialViewParameters (this st)))
    /\ views st' !! v2 = Some (mkView STEREOSCOPIC_LIMITER 0 (_initialViewParameters (this st))).
Proof.
  intros Hu.
  destruct (onCreate_runs st Hu) as (st' & own & Hrun & Hc & Hv1 & Hv2 & Hviews).
  exists st', (view1 own), (view2 own).
  pose proof (created_views_differ _ _ Hc) as Hne.
  split; [exact Hrun|]. split; [exact (created_views _ _ Hc)|].
  split; [exact Hne|]. split; [exact Hv1|]. split; [exact Hv2|].
  split; [exact Hviews|]. rewrite Hviews. split.
  - rewrite lookup_insert_ne by congruence. apply lookup_insert_eq.
  - apply lookup_insert_eq.
Qed.

(** C2: the base path is the default exactly when [FS.path] gives a
    non-empty string, and is the path followed by [tiles] otherwise: the
    reverse of a fallback. *)
Lemma basePath_cases (stagePath : JsString) :
  match FS_path stagePath with
  | js_string "" => basePath stagePath = "tiles"
  | js_string _ => basePath stagePath = "assets/tiles"
  | js_undefined => basePath stagePath = "undefinedtiles"
  | js_null => basePath stagePath = "nulltiles"
  end.
Proof.
  unfold basePath. destruct (FS_path stagePath) as [| |[|a s]]; reflexivity.
Qed.

Section DeserializationFacts.

Context {LevelData LinkData InfoData : Type}.
Variable Level_fromJSON : LevelData -> Level.
Variable LinkHotspot_fromJSON : Player -> LinkData -> Hotspot Node Position.
Variable InfoHotspot_fromJSON : Player -> InfoData -> Hotspot Node Position.
Variable JSON_parse : string -> option Json.
Variable as_ISceneData : Json -> ISceneData.t LevelData LinkData InfoData.

#[local] Abbreviation Scene_fromJSON :=
  (fromJSON Level_fromJSON LinkHotspot_fromJSON InfoHotspot_fromJSON JSON_parse
     as_ISceneData).
#[local] Abbreviation Scene_fromJSON_value :=
  (fromJSON_value Level_fromJSON LinkHotspot_fromJSON InfoHotspot_fromJSON JSON_parse
     as_ISceneData).
#[local] Abbreviation Scene_of_object :=
  (fromJSON_object Level_fromJSON LinkHotspot_fromJSON InfoHotspot_fromJSON).

(** Whatever [Scene.fromJSON] returns was made by the [else] branch. *)
Lemma fromJSON_value_built (player : Player) (depth : nat) :
  forall (json : Json) (scene : Scene),
    Scene_fromJSON_value depth player json = Some (Normal scene) ->
    exists value, scene = Scene_of_object player value.
Proof.
  induction depth as [|depth IH]; intros json scene Hrun.
  - destruct json; simpl in Hrun; try discriminate;
      unfold fromJSON_any in Hrun;
      match type of Hrun with
      | context [if ?b then _ else _] => destruct b; [|discriminate]
      end; injection Hrun as <-; eauto.
  - destruct json; simpl in Hrun;
      try (unfold fromJSON_any in Hrun;
           match type of Hrun with
           | context [if ?b then _ else _] => destruct b; [|discriminate]
           end; injection Hrun as <-; eauto; fail).
    destruct (JSON_parse s) as [root|]; [|discriminate].
    destruct (internalize _ root) as [[root'|e]|]; try discriminate.
    exact (IH root' scene Hrun).
Qed.

(** Where [fromJSON] builds a scene.  For every descriptor object [fromJSON]
    returns a scene whose [initialViewParameters] are the descriptor's yaw
    and pitch followed by 0 and 90, and the [roll] and [fov] of the
    descriptor do not show in them.  So it does for a text whose parsed
    root the reviver is not entered in (a root that internalizing leaves as
    it is) and the [else] branch can read.  And a scene [fromJSON] returns
    for any text has 0 and 90 there. *)
Lemma fromJSON_initialViewParameters (player : Player) (depth : nat) :
  (forall value,
     exists scene,
       Scene_fromJSON depth player (json_object value) = Some (Normal scene)
       /\ _initialViewParameters scene =
            Vector4.mk (ISceneData.yaw (ISceneData.initialViewParameters value))
              (ISceneData.pitch (ISceneData.initialViewParameters value)) 0 90)
  /\ (forall text root,
        JSON_parse text = Some root ->
        internalize (Scene_fromJSON_value depth player) root = Some (Normal root) ->
        readable root = true ->
        exists scene,
          Scene_fromJSON (S depth) player (json_string text) = Some (Normal scene)
          /\ _initialViewParameters scene =
               Vector4.mk
                 (ISceneData.yaw (ISceneData.initialViewParameters (as_ISceneData root)))
                 (ISceneData.pitch (ISceneData.initialViewParameters (as_ISceneData root)))
                 0 90)
  /\ (forall json scene,
        Scene_fromJSON depth player json = Some (Normal scene) ->
        Vector4.z (_initialViewParameters scene) = 0%float
        /\ Vector4.w (_initialViewParameters scene) = 90%float)
  /\ (forall value roll fov,
        _initialViewParameters
          (Scene_of_object player
             (ISceneData.mk (ISceneData.id value) (ISceneData.name value)
             (ISceneData.levels value) (ISceneData.faceSize value)
             (ISceneData.mkViewParameters
                (ISceneData.yaw (ISceneData.initialViewParameters value))
                (ISceneData.pitch (ISceneData.initialViewParameters value))
                roll fov)
             (ISceneData.linkHotspots value) (ISceneData.infoHotspots value)))
        = _initialViewParameters (Scene_of_object player value)).
Proof.
  split; [|split; [|split]].
  - intros value. eexists. split; reflexivity.
  - intros text root Hparse Hsame Hread. unfold fromJSON.
    cbn [fromJSON_value]. rewrite Hparse, Hsame.
    assert (Hrun : Scene_fromJSON_value depth player root
                   = Some (Normal (Scene_of_object player (as_ISceneData root)))).
    { destruct root; try discriminate Hread.
      destruct depth; cbn [fromJSON_value]; unfold fromJSON_any; rewrite Hread;
        reflexivity. }
    rewrite Hrun. eexists. split; reflexivity.
  - intros [value|text] scene Hrun; unfold fromJSON in Hrun.
    + injection Hrun as <-. split; reflexivity.
    + destruct (fromJSON_value_built player depth _ scene Hrun) as (value & ->).
      split; reflexivity.
  - intros value roll fov. reflexivity.
Qed.

End DeserializationFacts.

(** ** Transitions *)

Ltac js_unfold :=
  unfold invoke, onCreate, createLayer, createHotspot, onAttach, onDetatch, mount,
    unmount, onDestroy, onResume, onResize, onPause, set_projectionCenter, set_eye,
    run_timer, tween_update, pair, call_if_function, hotspotContainer,
    views_primary, views_secondary, layers_primary, layers_secondary, this_views,
    this_layers, this_sources, this_textureStores, CubeGeometry_new,
    RectilinearView_new, View_setLimiter, View_setProjectionCenterX,
    View_setParameters, View_destroy, ImageUrlSource_fromString, TextureStore_new,
    TextureStore_destroy, Layer_new, Layer_pinFirstLevel, Layer_effects_rect,
    Layer_setEffects, Layer_destroy, HotspotContainer_new,
    HotspotContainer_createHotspot, HotspotContainer_setRect,
    HotspotContainer_update, HotspotContainer_show, HotspotContainer_hide,
    HotspotContainer_destroy, Stage_addLayer, Stage_removeLayer, Stage_hasLayer,
    setTimeout, record.


(** A step that is no business of the tweens: they, the stored cancellation
    function and the completions on record are as before. *)
Definition quiet : relation World := fun st st' =>
  tweens st' = tweens st
  /\ _cancelTweening (this st') = _cancelTweening (this st)
  /\ forall h, completions h (calls st') = completions h (calls st).

#[local] Instance quiet_preorder : PreOrder quiet.
Proof.
  split.
  - intros st. repeat split.
  - intros a b c (Ht1 & Hh1 & Hc1) (Ht2 & Hh2 & Hc2).
    split; [congruence|]. split; [congruence|].
    intros h. rewrite Hc2. apply Hc1.
Qed.











(** A step that keeps what holds of the world. *)
Definition keeps (I : World -> Prop) : relation World := fun st st' => I st -> I st'.

#[local] Instance keeps_preorder (I : World -> Prop) : PreOrder (keeps I).
Proof. split; [intros st H; exact H | intros a b c Hab Hbc H; exact (Hbc (Hab H))]. Qed.



Lemma quiet_idle (st st' : World) : quiet st st' -> idle st -> idle st'.
Proof. intros (Ht & _) H h. unfold in_flight. rewrite Ht. apply H. Qed.










Lemma tween_done_closure_unfold (o : Tween) (st : World) :
  tween_done_closure o st
  = match tween_kind o with
    | attaching =>
        c <- hotspotContainer ;; HotspotContainer_show c ;; call_if_function (tween_done o)
    | detaching => unmount (tween_done o)
    end (upd_this (set_cancelTweening None) st).
Proof. unfold tween_done_closure. destruct (tween_kind o); reflexivity. Qed.














(** Clearing the stored cancellation function leaves a created scene
    created. *)
Lemma created_set_cancelTweening (st : World) (own : Owned) (h : option nat) :
  created st own -> created (upd_this (set_cancelTweening h) st) own.
Proof.
  intros Hc. destruct st as [[] ? ? ? ? ? ? ? ? ? ?]. destruct Hc. split; assumption.
Qed.

(** C6, as amended: on an attached scene, without a transition [onDetatch]
    unmounts the primary layer, unmounts the secondary layer only if the
    stage has it mounted, hides the hotspot container and calls [done], and
    leaves the scene's fields, every other engine object, the timers and
    the tweens as they were.  With a transition the call itself leaves the
    stage, the engine objects and the timers as they were: it calls the
    stored cancellation function, if there is one, starts one detaching
    tween [h] with the given transition, duration and [done], and stores
    its cancellation function, changing no other field of the scene.  The
    completion closure of that tween, run on the world the call leaves,
    does the unmounting and the hiding, and leaves the scene with its
    stored cancellation function cleared and its other fields as they were
    before the call. *)
Theorem onDetatch_unmounts_and_hides (st : World) (own : Owned)
    (duration : option number) (done : option Callback) :
  attached st own ->
  (exists st',
     onDetatch None duration done st = (Normal tt, st')
     /\ detaches own done st st'
     /\ this st' = this st
     /\ tweens st' = tweens st
     /\ timers st' = timers st)
  /\ (forall transition, exists st' h st'',
        onDetatch (Some transition) duration done st = (Normal tt, st')
        /\ stage st' = stage st
        /\ containers st' = containers st
        /\ geometries st' = geometries st
        /\ views st' = views st
        /\ sources st' = sources st
        /\ textureStores st' = textureStores st
        /\ layers st' = layers st
        /\ timers st' = timers st
        /\ tweens st !! h = None
        /\ tweens st' =
             <[h := mkTween duration detaching transition done Running]>
               match _cancelTweening (this st) with
               | Some h0 => alter cancel_status h0 (tweens st)
               | None => tweens st
               end
        /\ calls st' =
             calls st ++ (tween_cancel <$> option_list (_cancelTweening (this st))) ++
             [tween_start h]
        /\ this st' = set_cancelTweening (Some h) (this st)
        /\ tween_done_closure (mkTween duration detaching transition done Running) st'
           = (Normal tt, st'')
        /\ detaches own done st' st''
        /\ this st'' = set_cancelTweening None (this st)
        /\ tweens st'' = tweens st'
        /\ timers st'' = timers st').
Proof.
  intros (Hc & _). split.
  - destruct (unmount_detaches st own done Hc) as (st' & Hrun & Hd & Hthis & Htw & Htm).
    exists st'. unfold onDetatch. auto.
  - intros transition.
    assert (Hrun : exists st' h,
      onDetatch (Some transition) duration done st = (Normal tt, st')
      /\ stage st' = stage st /\ containers st' = containers st
      /\ geometries st' = geometries st /\ views st' = views st
      /\ sources st' = sources st /\ textureStores st' = textureStores st
      /\ layers st' = layers st /\ timers st' = timers st
      /\ tweens st !! h = None
      /\ tweens st' =
           <[h := mkTween duration detaching transition done Running]>
             match _cancelTweening (this st) with
             | Some h0 => alter cancel_status h0 (tweens st)
             | None => tweens st
             end
      /\ calls st' =
           calls st ++ (tween_cancel <$> option_list (_cancelTweening (this st))) ++
           [tween_start h]
      /\ this st' = set_cancelTweening (Some h) (this st)).
    { clear Hc. destruct st as [[] ? ? ? ? ? ? ? ? ? ?].
      destruct _cancelTweening0 as [h0|]; js_run;
        (eexists; eexists; split; [reflexivity|]); js_eval;
        rewrite <- ?app_assoc;
        do 8 (split; [reflexivity|]);
        (split; [|repeat split; reflexivity]).
      - pose proof (unused_None (alter cancel_status h0 tweens0)) as Hnew.
        rewrite <- (not_elem_of_dom (D := gset nat)). rewrite <- not_elem_of_dom in Hnew.
        rewrite dom_alter_L in Hnew. exact Hnew.
      - apply unused_None. }
    destruct Hrun as (st' & h & Hrun & Hsg & Hcs & Hgs & Hvs & Hss & Hts & Hls & Htm
                      & Hfresh & Htw & Hcalls & Hthis).
    assert (Hc' : created st' own).
    { destruct Hc. split; rewrite ?Hthis, ?Hvs, ?Hls, ?Hcs; try assumption;
        destruct st as [[] ? ? ? ? ? ? ? ? ? ?]; assumption. }
    pose proof (created_set_cancelTweening st' own None Hc') as Hc''.
    destruct (unmount_detaches _ own done Hc'') as (st'' & Hrun' & Hd & Hthis' & Htw' & Htm').
    exists st', h, st''.
    do 13 (split; [assumption|]).
    split; [|split; [|split; [|split]]].
    + rewrite tween_done_closure_unfold. exact Hrun'.
    + destruct st' as [[] ? ? ? ? ? ? ? ? ? ?]. exact Hd.
    + rewrite Hthis'. destruct st' as [[] ? ? ? ? ? ? ? ? ? ?].
      destruct st as [[] ? ? ? ? ? ? ? ? ? ?]. simpl in Hthis. simpl.
      injection Hthis as -> -> -> -> -> -> -> -> -> -> -> -> -> -> -> ->. reflexivity.
    + rewrite Htw'. destruct st' as [[] ? ? ? ? ? ? ? ? ? ?]. reflexivity.
    + rewrite Htm'. destruct st' as [[] ? ? ? ? ? ? ? ? ? ?]. reflexivity.
Qed.


(** ** The rest of the lifecycle *)

(** *** The getters *)

(** [get id], [get name], [get linkHotspots], [get infoHotspots],
    [get views] and [get layers]. *)
Definition get_id (st : World) : string := _id (this st).
Definition get_name (st : World) : string := _name (this st).
Definition get_linkHotspots (st : World) : list (Hotspot Node Position) :=
  _linkHotspots (this st).
Definition get_infoHotspots (st : World) : list (Hotspot Node Position) :=
  _infoHotspots (this st).
Definition get_views (st : World) : option (PairSet.t nat) := _views (this st).
Definition get_layers (st : World) : option (PairSet.t nat) := _layers (this st).

(** The layer an eye stands for. *)
Definition layer_of (own : Owned) (eye : Eye.t) : nat :=
  match eye with
  | Eye.left => layer1 own
  | Eye.right => layer2 own
  end.

(** What [setRect(rect)] does to a container. *)
Definition with_rect (rect : Rect) (o : HotspotContainer) : HotspotContainer :=
  mkHotspotContainer (container_view o) rect (visible o) (hotspots o).

(** *** The eye *)

(** X1: on a created scene, assigning [eye] hands the hotspot container the
    rectangle the eye's layer has at that moment (the primary layer for
    [left], the secondary for [right]) and then updates the container:
    these are its two calls, and nothing but the container changes. *)
Theorem set_eye_binds_container_to_layer (st : World) (own : Owned) (eye : Eye.t)
    (l : Layer) :
  created st own ->
  layers st !! layer_of own eye = Some l ->
  exists st',
    set_eye eye st = (Normal tt, st')
    /\ calls st' = calls st ++
         [ container_setRect (container_of own) (effects_rect l);
           container_update (container_of own) ]
    /\ containers st' = alter (with_rect (effects_rect l)) (container_of own) (containers st)
    /\ container_rect <$> containers st' !! container_of own = Some (effects_rect l)
    /\ visible <$> containers st' !! container_of own
       = visible <$> containers st !! container_of own
    /\ this st' = this st
    /\ views st' = views st
    /\ layers st' = layers st
    /\ stage st' = stage st
    /\ timers st' = timers st
    /\ tweens st' = tweens st.
Proof.
  intros Hc Hl. created_cases st own Hc.
  destruct eye; unfold layer_of in Hl; js_eval_in Hl;
    [rewrite Hl1 in Hl | rewrite Hl2 in Hl]; injection Hl as <-;
    js_run; (eexists; split; [reflexivity|]); js_eval;
    rewrite <- ?app_assoc;
    (split; [reflexivity|]); (split; [reflexivity|]);
    (split; [js_run; reflexivity|]);
    (split; [js_run; reflexivity|]);
    repeat split; reflexivity.
Qed.

(** *** Attaching *)

(** The limiter a mode asks of the primary view. *)
Definition limiter_of (m : Mode) : Limiter :=
  match m with
  | PanoramaMode => PANORAMA_LIMITER
  | StereoscopicMode _ => STEREOSCOPIC_LIMITER
  end.

(** X2: on a detached scene [onAttach] gives the primary view the limiter of
    the player's mode and leaves the secondary view's limiter alone; it
    changes no view's parameters itself, and leaves exactly one timer, the
    reset of the view parameters, for a later turn. *)
Theorem onAttach_limits_primary_view_by_mode (st : World) (own : Owned)
    (transition : option Callback) (duration : option number)
    (done : option Callback) :
  detached st own ->
  exists st',
    onAttach transition duration done st = (Normal tt, st')
    /\ limiter <$> views st' !! view1 own = Some (limiter_of (mode (_player (this st))))
    /\ limiter <$> views st' !! view2 own = limiter <$> views st !! view2 own
    /\ parameters <$> views st' !! view1 own = parameters <$> views st !! view1 own
    /\ parameters <$> views st' !! view2 own = parameters <$> views st !! view2 own
    /\ timers st' = timers st ++ [resetViewParameters].
Proof.
  intros (Hc & _ & _). created_cases st own Hc.
  destruct p as [path [|[]]]; destruct transition as [t|];
    try destruct done as [f|]; try destruct ct as [h|]; js_run;
    (eexists; split; [reflexivity|]); js_eval;
    repeat split; js_run; reflexivity.
Qed.

(** X3: in stereoscopic mode [onAttach] on a detached scene halves the primary
    layer ([{ relativeWidth: 0.5 }], the offset gone with the rectangle it
    replaces) and leaves the secondary layer as it is; binds the hotspot
    container to the rectangle of the dominant eye's layer; and sets the
    primary view's projection-center x-offset to the stored center's,
    without touching the secondary view. *)
Theorem onAttach_stereoscopic_layout (st : World) (own : Owned) (eye : Eye.t)
    (center : Vector4.t) (transition : option Callback) (duration : option number)
    (done : option Callback) :
  detached st own ->
  mode (_player (this st)) = StereoscopicMode eye ->
  _projectionCenter (this st) = Some center ->
  exists st',
    onAttach transition duration done st = (Normal tt, st')
    /\ effects_rect <$> layers st' !! layer1 own = Some (mkRect (Some 0.5%float) None)
    /\ layers st' !! layer2 own = layers st !! layer2 own
    /\ container_rect <$> containers st' !! container_of own =
         match eye with
         | Eye.left => Some (mkRect (Some 0.5%float) None)
         | Eye.right => effects_rect <$> layers st !! layer2 own
         end
    /\ projectionCenterX <$> views st' !! view1 own = Some (Vector4.x center)
    /\ views st' !! view2 own = views st !! view2 own.
Proof.
  intros (Hc & _ & _) Hm Hcenter. created_cases st own Hc.
  destruct p as [path m]. simpl in Hm. js_eval_in Hcenter. subst m.
  injection Hcenter as ->.
  destruct eye; destruct transition as [t|];
    try destruct done as [f|]; try destruct ct as [h|]; js_run;
    (eexists; split; [reflexivity|]); js_eval;
    repeat split; js_run; reflexivity.
Qed.

(** X4: the timer [onAttach] leaves behind, run on a created scene, sets the
    parameters of both views to the scene's [initialViewParameters], so
    that they are equal; limiters and projection centers stay, and so does
    everything but the views. *)
Theorem timer_resets_view_parameters (st : World) (own : Owned) :
  created st own ->
  exists st',
    run_timer resetViewParameters st = (Normal tt, st')
    /\ parameters <$> views st' !! view1 own = Some (_initialViewParameters (this st))
    /\ parameters <$> views st' !! view2 own = Some (_initialViewParameters (this st))
    /\ limiter <$> views st' !! view1 own = limiter <$> views st !! view1 own
    /\ limiter <$> views st' !! view2 own = limiter <$> views st !! view2 own
    /\ projectionCenterX <$> views st' !! view1 own
       = projectionCenterX <$> views st !! view1 own
    /\ projectionCenterX <$> views st' !! view2 own
       = projectionCenterX <$> views st !! view2 own
    /\ calls st' = calls st ++
         [ view_setParameters (view1 own) (_initialViewParameters (this st));
           view_setParameters (view2 own) (_initialViewParameters (this st)) ]
    /\ this st' = this st
    /\ layers st' = layers st
    /\ containers st' = containers st
    /\ stage st' = stage st.
Proof.
  intros Hc. created_cases st own Hc. js_run.
  eexists. split; [reflexivity|]. js_eval. rewrite <- ?app_assoc.
  repeat split; js_run; reflexivity.
Qed.

(** *** After [onDestroy] *)

(** [onDestroy] on a created scene, as a computation that ends normally. *)
Lemma onDestroy_runs (st : World) (own : Owned) :
  created st own ->
  exists st',
    onDestroy st = (Normal tt, st')
    /\ _views (this st') = None
    /\ _sources (this st') = None
    /\ _textureStores (this st') = None
    /\ _layers (this st') = None
    /\ _hotspotContainer (this st') = None
    /\ _cancelTweening (this st') = _cancelTweening (this st)
    /\ _projectionCenter (this st') = _projectionCenter (this st)
    /\ _player (this st') = _player (this st)
    /\ geometries st' = geometries st
    /\ views st' = views st
    /\ sources st' = sources st
    /\ textureStores st' = textureStores st
    /\ layers st' = layers st
    /\ containers st' = containers st
    /\ stage st' = stage st
    /\ timers st' = timers st
    /\ tweens st' = tweens st.
Proof.
  intros Hc. created_cases st own Hc. js_run.
  eexists. split; [reflexivity|]. js_eval. repeat split; reflexivity.
Qed.

(** Takes apart a world whose scene has lost its resources. *)
Ltac destroyed_cases st :=
  destruct st as [[i n lv fs ivp lh ih p g pc vw hc sr tx ly ct] gs vs ss ts ls cs sg tm tw cl];
  repeat match goal with
         | H : _ = _ |- _ => progress js_eval_in H
         end;
  subst.

(** X5: [onDestroy] clears no timer: the reset [onAttach] left pending on a scene
    that is destroyed before it fires still fires, and then ends in a
    [TypeError] (the views are [null]), changing nothing. *)
Theorem timer_after_onDestroy_throws (st : World) (own : Owned) :
  created st own ->
  exists st',
    onDestroy st = (Normal tt, st')
    /\ timers st' = timers st
    /\ forall t, run_timer t st' = (Throw TypeError, st').
Proof.
  intros Hc.
  destruct (onDestroy_runs st own Hc)
    as (st' & Hrun & Hvw & _ & _ & _ & _ & _ & _ & _ & _ & _ & _ & _ & _ & _ & _ & Htm & _).
  exists st'. split; [exact Hrun|]. split; [exact Htm|].
  intros []. clear Hrun Htm Hc. destroyed_cases st'. reflexivity.
Qed.

(** X6: a destroyed scene takes no further call: [onAttach], [onDetatch]
    without a transition, a second [onDestroy] and both setters end in a
    [TypeError] at their first statement, and leave the world as it is. *)
Theorem destroyed_scene_rejects_calls (st : World) (own : Owned) :
  created st own ->
  exists st',
    onDestroy st = (Normal tt, st')
    /\ (forall transition duration done,
          onAttach transition duration done st' = (Throw TypeError, st'))
    /\ (forall duration done, onDetatch None duration done st' = (Throw TypeError, st'))
    /\ onDestroy st' = (Throw TypeError, st')
    /\ (forall center, set_projectionCenter center st' = (Throw TypeError, st'))
    /\ (forall eye, set_eye eye st' = (Throw TypeError, st')).
Proof.
  intros Hc.
  destruct (onDestroy_runs st own Hc)
    as (st' & Hrun & Hvw & Hsr & Htx & Hly & Hhc & _).
  exists st'. split; [exact Hrun|]. clear Hrun Hc.
  destroyed_cases st'. destruct p as [path m].
  split; [intros; destruct m; reflexivity|].
  split; [intros; reflexivity|]. split; [reflexivity|].
  split; [intros; reflexivity|]. intros []; reflexivity.
Qed.

(** *** Creating *)

(** What the engine is handed of a hotspot. *)
Definition anchor (h : Hotspot Node Position) : Node * Position :=
  (node h, position h).

(** The call that places hotspot [h] in container [c]. *)
Definition placed (c : nat) (h : Hotspot Node Position) : Call :=
  container_createHotspot c (node h) (position h).

(** The URLs [createLayer] builds for an eye. *)
Definition tile_url (st : World) (eye : Eye.t) : string :=
  basePath (stagePath (_player (this st))) +:+ "/" +:+ _id (this st) +:+ "/" +:+
  Eye.to_string eye +:+ "/{z}/{f}/{y}/{x}.jpg".

Definition preview_url (st : World) (eye : Eye.t) : string :=
  basePath (stagePath (_player (this st))) +:+ "/" +:+ _id (this st) +:+ "/" +:+
  Eye.to_string eye +:+ "/preview.jpg".

(** The constructor has run and [onDestroy] has not: the three pair sets
    [createLayer] fills are there. *)
Definition constructed (scene : Scene) : Prop :=
  is_Some (_sources scene) /\ is_Some (_textureStores scene) /\ is_Some (_layers scene).

Lemma uninitialized_constructed (scene : Scene) : uninitialized scene -> constructed scene.
Proof. intros (Hs & Ht & Hl). unfold constructed. rewrite Hs, Ht, Hl. eauto. Qed.

Lemma created_constructed (st : World) (own : Owned) :
  created st own -> constructed (this st).
Proof.
  intros Hc. unfold constructed.
  rewrite (created_sources _ _ Hc), (created_stores _ _ Hc), (created_layers _ _ Hc).
  eauto.
Qed.

(** Placing the hotspots of a list, one call each and in the order of the
    list; the world afterwards. *)
Lemma forEach_createHotspot_result (hs : list (Hotspot Node Position)) :
  forall (st : World) (c : nat) (o : HotspotContainer),
    _hotspotContainer (this st) = Some c ->
    containers st !! c = Some o ->
    forEach createHotspot hs st =
      (Normal tt,
       upd_calls (fun l => l ++ map (placed c) hs)
         (upd_containers
            (insert c (mkHotspotContainer (container_view o) (container_rect o) (visible o)
                         (hotspots o ++ map anchor hs))) st)).
Proof.
  induction hs as [|a hs IH]; intros st c o Hc Ho.
  - destruct st as [[] ? ? ? ? ? ? ? ? ? ?]. js_eval_in Ho. cbn [forEach map]. js_eval.
    rewrite !app_nil_r. destruct o. cbn. rewrite (insert_id _ _ _ Ho). reflexivity.
  - destruct st as [[] ? ? ? ? ? ? ? ? ? ?]. js_eval_in Hc. js_eval_in Ho. subst.
    cbn [forEach]. unfold bind at 1, createHotspot at 1. js_eval.
    erewrite IH; [ | reflexivity | js_eval; rewrite lookup_alter_eq, Ho; reflexivity ].
    js_eval. cbn [container_view container_rect visible hotspots map].
    rewrite insert_alter_eq, <- !app_assoc. reflexivity.
Qed.

(** What [onCreate] adds to the engine and makes of the scene. *)
Record creates (st st' : World) (own : Owned) : Prop := mkCreates {
  creates_geometries :
    geometries st' = <[geometry_of own := mkGeometry (_levels (this st))]> (geometries st);
  creates_views :
    views st' =
      <[view2 own := mkView STEREOSCOPIC_LIMITER 0 (_initialViewParameters (this st))]>
        (<[view1 own := mkView PANORAMA_LIMITER 0 (_initialViewParameters (this st))]>
           (views st));
  creates_sources :
    sources st' =
      <[source2 own := mkSource (tile_url st Eye.right) (preview_url st Eye.right)]>
        (<[source1 own := mkSource (tile_url st Eye.left) (preview_url st Eye.left)]>
           (sources st));
  creates_textureStores :
    textureStores st' =
      <[store2 own := mkTextureStore (Some (geometry_of own)) (source2 own)]>
        (<[store1 own := mkTextureStore (Some (geometry_of own)) (source1 own)]>
           (textureStores st));
  creates_layers :
    layers st' =
      <[layer2 own := mkLayer (source2 own) (Some (geometry_of own)) (Some (view2 own))
                        (store2 own) (mkRect (Some 0.5%float) (Some 0.5%float)) true]>
        (<[layer1 own := mkLayer (source1 own) (Some (geometry_of own)) (Some (view1 own))
                           (store1 own) (mkRect (Some 0.5%float) (Some 0%float)) true]>
           (layers st));
  creates_containers :
    containers st' =
      <[container_of own :=
          mkHotspotContainer (Some (view1 own)) (mkRect (Some 0.5%float) (Some 0%float)) true
            (map anchor (_linkHotspots (this st) ++ _infoHotspots (this st)))]>
        (containers st);
  creates_calls :
    calls st' =
      calls st ++
      layer_pinFirstLevel (layer1 own) :: layer_pinFirstLevel (layer2 own) ::
      map (placed (container_of own)) (_linkHotspots (this st) ++ _infoHotspots (this st));
  creates_fresh_geometry : geometries st !! geometry_of own = None;
  creates_fresh_view1 : views st !! view1 own = None;
  creates_fresh_view2 : views st !! view2 own = None;
  creates_fresh_source1 : sources st !! source1 own = None;
  creates_fresh_source2 : sources st !! source2 own = None;
  creates_fresh_store1 : textureStores st !! store1 own = None;
  creates_fresh_store2 : textureStores st !! store2 own = None;
  creates_fresh_layer1 : layers st !! layer1 own = None;
  creates_fresh_layer2 : layers st !! layer2 own = None;
  creates_fresh_container : containers st !! container_of own = None;
  creates_sources_differ : source1 own <> source2 own;
  creates_stores_differ : store1 own <> store2 own;
  creates_stage : stage st' = stage st;
  creates_timers : timers st' = timers st;
  creates_tweens : tweens st' = tweens st;
  creates_center : _projectionCenter (this st') = Some (Vector4.mk2 0 0);
  creates_cancelTweening : _cancelTweening (this st') = _cancelTweening (this st);
  creates_player : _player (this st') = _player (this st) }.

Lemma unused_insert_ne {A} (m : gmap nat A) (k : nat) (a : A) : unused (<[k := a]> m) <> k.
Proof. apply unused_ne. rewrite lookup_insert_eq. eauto. Qed.

Lemma unused_insert_None {A} (m : gmap nat A) (k : nat) (a : A) :
  m !! unused (<[k := a]> m) = None.
Proof.
  pose proof (unused_None (<[k := a]> m)) as H.
  apply lookup_insert_None in H. tauto.
Qed.

(** [onCreate] on a scene that has its pair sets: it returns [true], and
    [creates] says what it has built. *)
Lemma onCreate_result (st : World) :
  constructed (this st) ->
  exists st' own,
    onCreate st = (Normal true, st') /\ created st' own /\ creates st st' own.
Proof.
  intros ([sr0 Hs] & [tx0 Ht] & [ly0 Hl]).
  destruct st as [[i n lv fs ivp lh ih p g pc vw hc sr tx ly ct] gs vs ss ts ls cs sg tm tw cl].
  js_eval_in Hs. js_eval_in Ht. js_eval_in Hl. subst.
  destruct p as [path m]. js_eval.
  rewrite !alter_insert_eq.
  cbn [layer_source layer_geometry layer_view layer_textureStore effects_rect
       firstLevelPinned].
  set (g' := unused gs).
  set (v1 := unused vs).
  set (v2 := unused (<[v1 := _]> vs)).
  set (s1 := unused ss).
  set (s2 := unused (<[s1 := _]> ss)).
  set (t1 := unused ts).
  set (t2 := unused (<[t1 := _]> ts)).
  set (l1 := unused ls).
  set (l2 := unused (<[l1 := _]> ls)).
  assert (Hl12 : l2 <> l1) by apply unused_insert_ne.
  assert (Hv12 : v2 <> v1) by apply unused_insert_ne.
  assert (Hs12 : s2 <> s1) by apply unused_insert_ne.
  assert (Ht12 : t2 <> t1) by apply unused_insert_ne.
  rewrite lookup_insert_ne, lookup_insert_eq by exact Hl12.
  js_eval. cbn [effects_rect].
  set (c := unused cs).
  match goal with
  | |- context [forEach createHotspot lh ?W] =>
      rewrite (forEach_createHotspot_result lh W c _ eq_refl (lookup_insert_eq _ _ _))
  end.
  js_eval. cbn [container_view container_rect visible hotspots].
  match goal with
  | |- context [forEach createHotspot ih ?W] =>
      rewrite (forEach_createHotspot_result ih W c _ eq_refl (lookup_insert_eq _ _ _))
  end.
  js_eval. cbn [container_view container_rect visible hotspots].
  eexists. exists (mkOwned g' v1 v2 s1 s2 t1 t2 l1 l2 c).
  split; [reflexivity|]. split.
  - split; js_eval; try reflexivity; try congruence; eauto.
    + rewrite lookup_insert_ne, lookup_insert_eq by exact Hv12. eauto.
    + rewrite lookup_insert_eq. eauto.
    + rewrite lookup_insert_ne, lookup_insert_eq by exact Hl12. eauto.
    + rewrite lookup_insert_eq. eauto.
    + rewrite lookup_insert_eq. eauto.
  - split; js_eval; try reflexivity; try congruence;
      try apply unused_None; try apply unused_insert_None.
    + rewrite !insert_insert_eq, app_nil_l, map_app. reflexivity.
    + rewrite <- !app_assoc, map_app. reflexivity.
Qed.

(** X7: a destroyed scene cannot be created again.  [onCreate] after
    [onDestroy] ends in a [TypeError]: having made a geometry and two views
    anew, [createLayer] makes a source, a texture store and a layer, pins
    the layer, and then fails to assign the source into the pair set that
    [onDestroy] has set to [null].  The sources, texture stores, layers and
    hotspot container of the scene stay [null], the layer that was made is
    left in the engine, and the stage is as it was. *)
Theorem onCreate_needs_the_pair_sets (st : World) (own : Owned) :
  created st own ->
  exists st' st'' l,
    onDestroy st = (Normal tt, st')
    /\ onCreate st' = (Throw TypeError, st'')
    /\ _sources (this st'') = None
    /\ _textureStores (this st'') = None
    /\ _layers (this st'') = None
    /\ _hotspotContainer (this st'') = None
    /\ is_Some (_geometry (this st''))
    /\ is_Some (_views (this st''))
    /\ calls st'' = calls st' ++ [layer_pinFirstLevel l]
    /\ layers st' !! l = None
    /\ is_Some (layers st'' !! l)
    /\ stage st'' = stage st.
Proof.
  intros Hc. created_cases st own Hc. destruct p as [path m]. js_run.
  eexists. eexists. exists (unused ls). split; [reflexivity|]. js_eval.
  split; [reflexivity|]. js_eval.
  do 4 (split; [reflexivity|]). split; [eauto|]. split; [eauto|].
  split; [reflexivity|]. split; [apply unused_None|].
  split; [|reflexivity].
  rewrite lookup_alter_eq, lookup_insert_eq. eauto.
Qed.

(** X8: [onCreate] builds one layer per eye: the primary layer on the primary
    view and the left half of the stage, the secondary layer on the
    secondary view and the right half, each with a source and a texture
    store of its own, both on the one geometry made of the scene's levels,
    and both with their first level pinned.  It mounts no layer, and leaves
    no timer and no tween. *)
Theorem onCreate_builds_one_layer_per_eye (st : World) :
  constructed (this st) ->
  exists st' own,
    onCreate st = (Normal true, st')
    /\ created st' own
    /\ layers st' !! layer1 own =
         Some (mkLayer (source1 own) (Some (geometry_of own)) (Some (view1 own))
                 (store1 own) (mkRect (Some 0.5%float) (Some 0%float)) true)
    /\ layers st' !! layer2 own =
         Some (mkLayer (source2 own) (Some (geometry_of own)) (Some (view2 own))
                 (store2 own) (mkRect (Some 0.5%float) (Some 0.5%float)) true)
    /\ textureStores st' !! store1 own
       = Some (mkTextureStore (Some (geometry_of own)) (source1 own))
    /\ textureStores st' !! store2 own
       = Some (mkTextureStore (Some (geometry_of own)) (source2 own))
    /\ source1 own <> source2 own
    /\ store1 own <> store2 own
    /\ geometries st' !! geometry_of own = Some (mkGeometry (_levels (this st)))
    /\ stage st' = stage st
    /\ timers st' = timers st
    /\ tweens st' = tweens st.
Proof.
  intros Hc. destruct (onCreate_result st Hc) as (st' & own & Hrun & Hcr & Hb).
  exists st', own. split; [exact Hrun|]. split; [exact Hcr|].
  rewrite (creates_layers _ _ _ Hb), (creates_textureStores _ _ _ Hb),
    (creates_geometries _ _ _ Hb).
  pose proof (created_layers_differ _ _ Hcr) as Hl.
  pose proof (creates_stores_differ _ _ _ Hb) as Ht.
  split; [rewrite lookup_insert_ne by congruence; apply lookup_insert_eq|].
  split; [apply lookup_insert_eq|].
  split; [rewrite lookup_insert_ne by congruence; apply lookup_insert_eq|].
  split; [apply lookup_insert_eq|].
  split; [exact (creates_sources_differ _ _ _ Hb)|]. split; [exact Ht|].
  split; [apply lookup_insert_eq|].
  split; [exact (creates_stage _ _ _ Hb)|].
  split; [exact (creates_timers _ _ _ Hb) | exact (creates_tweens _ _ _ Hb)].
Qed.

(** X9: the primary source reads the tiles of the left eye and the secondary
    source those of the right eye: the tile and the preview URL are the
    base path, the scene's id and the eye's name, in this order. *)
Theorem onCreate_sources_by_eye (st : World) :
  constructed (this st) ->
  exists st' s1 s2,
    onCreate st = (Normal true, st')
    /\ _sources (this st') = Some (PairSet.of_pair s1 s2)
    /\ sources st' !! s1 =
         Some (mkSource
                 (basePath (stagePath (_player (this st))) +:+ "/" +:+ _id (this st) +:+
                  "/left/{z}/{f}/{y}/{x}.jpg")
                 (basePath (stagePath (_player (this st))) +:+ "/" +:+ _id (this st) +:+
                  "/left/preview.jpg"))
    /\ sources st' !! s2 =
         Some (mkSource
                 (basePath (stagePath (_player (this st))) +:+ "/" +:+ _id (this st) +:+
                  "/right/{z}/{f}/{y}/{x}.jpg")
                 (basePath (stagePath (_player (this st))) +:+ "/" +:+ _id (this st) +:+
                  "/right/preview.jpg")).
Proof.
  intros Hc. destruct (onCreate_result st Hc) as (st' & own & Hrun & Hcr & Hb).
  exists st', (source1 own), (source2 own).
  split; [exact Hrun|]. split; [exact (created_sources _ _ Hcr)|].
  rewrite (creates_sources _ _ _ Hb).
  pose proof (creates_sources_differ _ _ _ Hb) as Hne.
  split; [rewrite lookup_insert_ne by congruence|]; apply lookup_insert_eq.
Qed.

(** X10: [onCreate] makes the hotspot container on the primary view and the
    primary layer's rectangle, and places in it every link hotspot and then
    every info hotspot, each list in its order; these placements are the
    last calls it makes. *)
Theorem onCreate_places_hotspots_in_order (st : World) :
  constructed (this st) ->
  exists st' c v1 v2,
    onCreate st = (Normal true, st')
    /\ _hotspotContainer (this st') = Some c
    /\ _views (this st') = Some (PairSet.of_pair v1 v2)
    /\ containers st !! c = None
    /\ container_view <$> containers st' !! c = Some (Some v1)
    /\ container_rect <$> containers st' !! c
       = Some (mkRect (Some 0.5%float) (Some 0%float))
    /\ hotspots <$> containers st' !! c =
         Some (map anchor (_linkHotspots (this st)) ++
               map anchor (_infoHotspots (this st)))
    /\ exists cs,
         calls st' = calls st ++ cs ++
           map (placed c) (_linkHotspots (this st)) ++
           map (placed c) (_infoHotspots (this st)).
Proof.
  intros Hc. destruct (onCreate_result st Hc) as (st' & own & Hrun & Hcr & Hb).
  exists st', (container_of own), (view1 own), (view2 own).
  split; [exact Hrun|]. split; [exact (created_container _ _ Hcr)|].
  split; [exact (created_views _ _ Hcr)|].
  split; [exact (creates_fresh_container _ _ _ Hb)|].
  rewrite (creates_containers _ _ _ Hb), (creates_calls _ _ _ Hb), !map_app.
  rewrite lookup_insert_eq.
  split; [reflexivity|]. split; [reflexivity|]. split; [reflexivity|].
  exists [layer_pinFirstLevel (layer1 own); layer_pinFirstLevel (layer2 own)].
  reflexivity.
Qed.

(** X11: [onCreate] does not ask whether the scene is created already.  Called
    on a created scene it builds everything anew, under identities the
    engine did not know; what the scene held before stays in the engine as
    it was, without a call to destroy it, and is no longer the scene's. *)
Theorem onCreate_again_abandons_resources (st : World) (own : Owned) :
  created st own ->
  exists st' own',
    onCreate st = (Normal true, st')
    /\ created st' own'
    /\ view1 own' <> view1 own /\ view1 own' <> view2 own
    /\ view2 own' <> view1 own /\ view2 own' <> view2 own
    /\ layer1 own' <> layer1 own /\ layer1 own' <> layer2 own
    /\ layer2 own' <> layer1 own /\ layer2 own' <> layer2 own
    /\ container_of own' <> container_of own
    /\ views st' !! view1 own = views st !! view1 own
    /\ views st' !! view2 own = views st !! view2 own
    /\ layers st' !! layer1 own = layers st !! layer1 own
    /\ layers st' !! layer2 own = layers st !! layer2 own
    /\ containers st' !! container_of own = containers st !! container_of own
    /\ calls st' =
         calls st ++
         layer_pinFirstLevel (layer1 own') :: layer_pinFirstLevel (layer2 own') ::
         map (placed (container_of own'))
           (_linkHotspots (this st) ++ _infoHotspots (this st)).
Proof.
  intros Hc.
  destruct (onCreate_result st (created_constructed st own Hc))
    as (st' & own' & Hrun & Hcr & Hb).
  exists st', own'. split; [exact Hrun|]. split; [exact Hcr|].
  assert (Hfresh : forall {A} (m : gmap nat A) k k', m !! k = None -> is_Some (m !! k') -> k <> k').
  { intros A m k k' Hk [a Hk'] <-. congruence. }
  pose proof (Hfresh _ _ _ _ (creates_fresh_view1 _ _ _ Hb) (created_view1 _ _ Hc)) as H11.
  pose proof (Hfresh _ _ _ _ (creates_fresh_view1 _ _ _ Hb) (created_view2 _ _ Hc)) as H12.
  pose proof (Hfresh _ _ _ _ (creates_fresh_view2 _ _ _ Hb) (created_view1 _ _ Hc)) as H21.
  pose proof (Hfresh _ _ _ _ (creates_fresh_view2 _ _ _ Hb) (created_view2 _ _ Hc)) as H22.
  pose proof (Hfresh _ _ _ _ (creates_fresh_layer1 _ _ _ Hb) (created_layer1 _ _ Hc)) as L11.
  pose proof (Hfresh _ _ _ _ (creates_fresh_layer1 _ _ _ Hb) (created_layer2 _ _ Hc)) as L12.
  pose proof (Hfresh _ _ _ _ (creates_fresh_layer2 _ _ _ Hb) (created_layer1 _ _ Hc)) as L21.
  pose proof (Hfresh _ _ _ _ (creates_fresh_layer2 _ _ _ Hb) (created_layer2 _ _ Hc)) as L22.
  pose proof (Hfresh _ _ _ _ (creates_fresh_container _ _ _ Hb)
                (created_in_container _ _ Hc)) as C.
  repeat (split; [assumption|]).
  rewrite (creates_views _ _ _ Hb), (creates_layers _ _ _ Hb),
    (creates_containers _ _ _ Hb), (creates_calls _ _ _ Hb).
  rewrite !lookup_insert_ne by congruence.
  repeat split; reflexivity.
Qed.

(** *** Attaching and detaching in turn *)

Lemma without_absent (k : nat) (ls : list nat) : k ∉ ls -> without (Some k) ls = ls.
Proof.
  intros H. unfold without. induction ls as [|a ls IH]; [reflexivity|].
  apply not_elem_of_cons in H as [Hne Hin].
  rewrite filter_cons_True by congruence. f_equal. exact (IH Hin).
Qed.

Lemma without_last (k : nat) (ls : list nat) :
  k ∉ ls -> without (Some k) (ls ++ [k]) = ls.
Proof.
  intros H. unfold without. rewrite filter_app.
  fold (without (Some k) ls). rewrite (without_absent k ls H).
  rewrite filter_cons_False by (intros Hne; apply Hne; reflexivity).
  rewrite filter_nil. apply app_nil_r.
Qed.

Lemma created_set_player (st : World) (own : Owned) (player : Player) :
  created st own -> created (upd_this (set_player player) st) own.
Proof.
  intros Hc. destruct st as [[] ? ? ? ? ? ? ? ? ? ?]. destruct Hc. split; assumption.
Qed.

(** A scene that was created is created still after its layers were taken
    off the stage. *)
Lemma detaches_created (st st' : World) (own : Owned) (done : option Callback) :
  created st own -> this st' = this st -> detaches own done st st' -> created st' own.
Proof.
  intros Hc Hthis (_ & _ & _ & _ & Hcs & _ & Hvs & _ & _ & Hls).
  destruct Hc. split; rewrite ?Hthis, ?Hvs, ?Hls, ?Hcs; try assumption.
  rewrite lookup_alter_is_Some. assumption.
Qed.

(** [onAttach] without a transition, from [Detached] to [Attached]. *)
Lemma onAttach_attaches (st : World) (own : Owned) (duration : option number)
    (done : option Callback) :
  detached st own ->
  exists st',
    onAttach None duration done st = (Normal tt, st')
    /\ created st' own
    /\ this st' = this st
    /\ stage st' =
         stage st ++
         match mode (_player (this st)) with
         | PanoramaMode => [layer1 own]
         | StereoscopicMode _ => [layer2 own; layer1 own]
         end.
Proof.
  intros (Hc & _ & _). created_cases st own Hc.
  destruct p as [path [|[]]]; destruct done as [f|]; js_run;
    (eexists; split; [reflexivity|]); js_eval;
    rewrite <- ?app_assoc;
    (split; [|split; reflexivity]);
    (split; js_eval; try reflexivity; try congruence;
     rewrite ?lookup_alter_is_Some; eauto).
Qed.

(** X12: a scene attached without a transition and then detached without one is
    detached as before: the stage is the list it was, whichever mode the
    scene was attached in and whichever mode the player is in when it is
    detached, and the hotspot container is hidden. *)
Theorem attach_then_detach_restores_stage (st : World) (own : Owned)
    (duration1 duration2 : option number) (done1 done2 : option Callback) (m : Mode) :
  detached st own ->
  exists st' st'',
    onAttach None duration1 done1 st = (Normal tt, st')
    /\ attached st' own
    /\ onDetatch None duration2 done2
         (upd_this (set_player (mkPlayer (stagePath (_player (this st'))) m)) st')
       = (Normal tt, st'')
    /\ detached st'' own
    /\ stage st'' = stage st
    /\ visible <$> containers st'' !! container_of own = Some false.
Proof.
  intros Hd. pose proof Hd as (Hc & Hl1 & Hl2).
  destruct (onAttach_attaches st own duration1 done1 Hd)
    as (st' & Hrun & Hc' & Hthis & Hstage).
  set (stm := upd_this (set_player (mkPlayer (stagePath (_player (this st'))) m)) st').
  assert (Hcm : created stm own) by apply created_set_player, Hc'.
  assert (Hsm : stage stm = stage st')
    by (subst stm; destruct st' as [[] ? ? ? ? ? ? ? ? ? ?]; reflexivity).
  destruct (unmount_detaches stm own done2 Hcm) as (st'' & Hrun' & Hdet & Hthis' & _).
  pose proof (detaches_created stm st'' own done2 Hcm Hthis' Hdet) as Hc''.
  pose proof Hdet as (Hst & Hn1 & Hn2 & _ & Hcs & _).
  exists st', st''. split; [exact Hrun|].
  split; [split; [exact Hc'|]|].
  { rewrite Hstage. apply elem_of_app. right.
    destruct (mode (_player (this st))); apply list_elem_of_In; simpl; tauto. }
  split; [exact Hrun'|]. split; [split; [exact Hc''|split; assumption]|].
  split.
  - rewrite Hst, Hsm, Hstage.
    pose proof (created_layers_differ _ _ Hc) as Hne.
    destruct (mode (_player (this st))).
    + rewrite bool_decide_eq_false_2.
      * apply without_last, Hl1.
      * rewrite not_elem_of_app. split; [exact Hl2|].
        intros Hin. apply list_elem_of_In in Hin. simpl in Hin. intuition congruence.
    + rewrite bool_decide_eq_true_2
        by (apply elem_of_app; right; apply list_elem_of_In; simpl; tauto).
      change [layer2 own; layer1 own] with ([layer2 own] ++ [layer1 own]).
      rewrite app_assoc, without_last.
      * apply without_last, Hl2.
      * rewrite not_elem_of_app. split; [exact Hl1|].
        intros Hin. apply list_elem_of_In in Hin. simpl in Hin. intuition congruence.
  - rewrite Hcs, lookup_alter_eq.
    destruct (created_in_container _ _ Hcm) as [o Ho]. rewrite Ho. reflexivity.
Qed.

(** *** Attaching with a transition *)

(** A call that shows a container or calls a [done] callback. *)
Definition shows_or_calls_back (c : Call) : bool :=
  match c with
  | container_show _ | call_done _ => true
  | _ => false
  end.

(** X13: with a transition, [onAttach] on a detached scene that has no transition
    pending starts a tween of the given duration and stores its cancellation
    function; it neither shows the hotspot container nor calls [done]
    itself.  The completion closure of that tween does both, in this order,
    after clearing the stored cancellation function, and leaves the stage
    alone. *)
Theorem onAttach_with_transition_shows_on_completion (st : World) (own : Owned)
    (transition : Callback) (duration : option number) (done : option Callback) :
  detached st own ->
  _cancelTweening (this st) = None ->
  exists st' h st'',
    onAttach (Some transition) duration done st = (Normal tt, st')
    /\ _cancelTweening (this st') = Some h
    /\ tweens st' !! h = Some (mkTween duration attaching transition done Running)
    /\ visible <$> containers st' !! container_of own
       = visible <$> containers st !! container_of own
    /\ (exists cs, calls st' = calls st ++ cs
                   /\ forallb (fun c => negb (shows_or_calls_back c)) cs = true)
    /\ tween_done_closure (mkTween duration attaching transition done Running) st'
       = (Normal tt, st'')
    /\ calls st'' = calls st' ++
         container_show (container_of own) :: (call_done <$> option_list done)
    /\ visible <$> containers st'' !! container_of own = Some true
    /\ _cancelTweening (this st'') = None
    /\ stage st'' = stage st'.
Proof.
  intros (Hc & _ & _) Hnone. created_cases st own Hc. js_eval_in Hnone. subst ct.
  destruct p as [path [|[]]]; destruct done as [f|]; js_run;
    (eexists; eexists; eexists; split; [reflexivity|]); js_eval;
    (split; [reflexivity|]);
    (split; [apply lookup_insert_eq|]);
    (split; [js_run; reflexivity|]);
    (split; [rewrite <- ?app_assoc; eexists; split; reflexivity|]);
    cbn [tween_kind tween_done]; js_run;
    (split; [reflexivity|]); js_eval;
    rewrite <- ?app_assoc;
    (split; [reflexivity|]);
    (split; [js_run; reflexivity|]);
    split; reflexivity.
Qed.

(** *** Destroying while something is pending or mounted *)

(** X14: [onDestroy] cancels no transition: the tweens and the stored
    cancellation function are as before.  The completion closure of a tween,
    attaching or detaching, that runs on the destroyed scene clears the
    stored cancellation function and then ends in a [TypeError], before it
    has called [done]. *)
Theorem onDestroy_leaves_transition_running (st : World) (own : Owned) :
  created st own ->
  exists st',
    onDestroy st = (Normal tt, st')
    /\ tweens st' = tweens st
    /\ _cancelTweening (this st') = _cancelTweening (this st)
    /\ forall o,
         tween_done_closure o st'
         = (Throw TypeError, upd_this (set_cancelTweening None) st').
Proof.
  intros Hc.
  destruct (onDestroy_runs st own Hc)
    as (st' & Hrun & _ & _ & _ & _ & Hhc & Hct & _ & _ & _ & _ & _ & _ & _ & _ & _ & _ & Htw).
  exists st'. split; [exact Hrun|]. split; [exact Htw|]. split; [exact Hct|].
  intros o. rewrite tween_done_closure_unfold.
  clear Hrun Hct Htw Hc.
  destruct st' as [[i n lv fs ivp lh ih p g pc vw hc sr tx ly ct] gs vs ss ts ls cs sg tm tw cl].
  js_eval_in Hhc. subst. destruct (tween_kind o); reflexivity.
Qed.

(** A call on the stage. *)
Definition on_stage (c : Call) : bool :=
  match c with
  | stage_addLayer _ | stage_removeLayer _ => true
  | _ => false
  end.

(** X15: [onDestroy] unmounts nothing: it makes no call on the stage, and
    the stage is as before, so the primary layer of a scene destroyed
    while attached is still on the stage. *)
Theorem onDestroy_leaves_layers_mounted (st : World) (own : Owned) :
  attached st own ->
  exists st',
    onDestroy st = (Normal tt, st')
    /\ stage st' = stage st
    /\ layer1 own ∈ stage st'
    /\ exists cs, calls st' = calls st ++ cs
                  /\ forallb (fun c => negb (on_stage c)) cs = true.
Proof.
  intros (Hc & Hin). created_cases st own Hc. js_run.
  eexists. split; [reflexivity|]. js_eval.
  split; [reflexivity|]. split; [exact Hin|].
  rewrite <- !app_assoc. eexists. split; reflexivity.
Qed.

(** *** What no step changes *)

Ltac js_unfold_all :=
  js_unfold;
  unfold tween_finish, tween_done_closure, cancelOngoing, startTweening, tween, cancel;
  js_unfold.

Section Steps.
Context (R : relation World) {HR : PreOrder R}.

(** A relation every move of the world keeps holds along every run. *)
Lemma steps_respect :
  (forall i, respects R (invoke i)) ->
  (forall t, respects R (run_timer t)) ->
  (forall f st, R st (upd_timers f st)) ->
  (forall o val, respects R (tween_update o val)) ->
  (forall h o, respects R (tween_finish h o)) ->
  (forall player st, R st (upd_this (set_player player) st)) ->
  forall st st', rtc step st st' -> R st st'.
Proof using HR.
  intros Hi Ht Hpop Hu Hf Hp st st' Hsteps.
  induction Hsteps as [st|st st1 st' Hstep _ IH]; [reflexivity|].
  transitivity st1; [|exact IH]. clear IH.
  destruct Hstep as [i st|t ts st Htm|h o val st Hh Hrun|h o st Hh Hrun|m st].
  - apply Hi.
  - transitivity (upd_timers (fun _ => ts) st); [apply Hpop | apply Ht].
  - apply Hu.
  - apply Hf.
  - apply Hp.
Qed.

End Steps.

(** The fields [fromJSON] copies from the descriptor are as they were. *)
Definition same_descriptor : relation World := fun st st' =>
  _id (this st') = _id (this st)
  /\ _name (this st') = _name (this st)
  /\ _levels (this st') = _levels (this st)
  /\ _faceSize (this st') = _faceSize (this st)
  /\ _initialViewParameters (this st') = _initialViewParameters (this st)
  /\ _linkHotspots (this st') = _linkHotspots (this st)
  /\ _infoHotspots (this st') = _infoHotspots (this st).

#[local] Instance same_descriptor_preorder : PreOrder same_descriptor.
Proof.
  split.
  - intros st. repeat split.
  - intros a b c (H1 & H2 & H3 & H4 & H5 & H6 & H7) (K1 & K2 & K3 & K4 & K5 & K6 & K7).
    repeat split; congruence.
Qed.

Ltac same_descriptor_leaf :=
  intros [[] ? ? ? ? ? ? ? ? ? ?]; unfold same_descriptor; js_eval;
  solve [repeat split].

(** X16: no method of the scene, no timer and no tween writes a field of the
    descriptor: along every run of the world the getters [id], [name],
    [linkHotspots] and [infoHotspots] return what they returned at its
    start, and the levels, the face size and the initial view parameters
    are the same. *)
Theorem descriptor_is_constant (st st' : World) :
  rtc step st st' ->
  get_id st' = get_id st
  /\ get_name st' = get_name st
  /\ get_linkHotspots st' = get_linkHotspots st
  /\ get_infoHotspots st' = get_infoHotspots st
  /\ _levels (this st') = _levels (this st)
  /\ _faceSize (this st') = _faceSize (this st)
  /\ _initialViewParameters (this st') = _initialViewParameters (this st).
Proof.
  intros Hsteps.
  assert (H : same_descriptor st st').
  { revert st st' Hsteps. apply steps_respect.
    - typeclasses eauto.
    - intros i. js_unfold_all. respects_walk same_descriptor_leaf.
    - intros t. js_unfold_all. respects_walk same_descriptor_leaf.
    - intros f. same_descriptor_leaf.
    - intros o val. js_unfold_all. respects_walk same_descriptor_leaf.
    - intros h o. js_unfold_all. respects_walk same_descriptor_leaf.
    - intros player. same_descriptor_leaf. }
  destruct H as (H1 & H2 & H3 & H4 & H5 & H6 & H7).
  unfold get_id, get_name, get_linkHotspots, get_infoHotspots.
  repeat split; assumption.
Qed.

(** The stored projection center is the one [onCreate] sets. *)
Definition centered (st : World) : Prop :=
  get_projectionCenter st = Some (Vector4.mk2 0 0).

Ltac centered_leaf :=
  intros [[] ? ? ? ? ? ? ? ? ? ?]; unfold keeps, centered; js_eval;
  intros H; first [exact H | reflexivity].

(** X17: [onCreate] stores the projection center (0, 0), and nothing stores
    another: in every world reached from a created scene, whatever was
    assigned to [projectionCenter] on the way, the getter returns (0, 0). *)
Theorem stored_projectionCenter_is_constant (st : World) :
  constructed (this st) ->
  exists st1,
    onCreate st = (Normal true, st1)
    /\ forall st', rtc step st1 st' -> get_projectionCenter st' = Some (Vector4.mk2 0 0).
Proof.
  intros Hc. destruct (onCreate_result st Hc) as (st1 & own & Hrun & _ & Hb).
  exists st1. split; [exact Hrun|]. intros st' Hsteps.
  assert (H : keeps centered st1 st').
  { revert st1 st' Hsteps Hrun Hb. intros st1 st' Hsteps _ _. revert st1 st' Hsteps.
    apply steps_respect.
    - typeclasses eauto.
    - intros i. js_unfold_all. respects_walk centered_leaf.
    - intros t. js_unfold_all. respects_walk centered_leaf.
    - intros f. centered_leaf.
    - intros o val. js_unfold_all. respects_walk centered_leaf.
    - intros h o. js_unfold_all. respects_walk centered_leaf.
    - intros player. centered_leaf. }
  apply H. exact (creates_center _ _ _ Hb).
Qed.

(** The stage is as it was. *)
Definition same_stage : relation World := fun st st' => stage st' = stage st.

#[local] Instance same_stage_preorder : PreOrder same_stage.
Proof.
  split; [intros st; reflexivity|].
  intros a b c Hab Hbc. unfold same_stage in *. congruence.
Qed.

Ltac same_stage_leaf := intros [[] ? ? ? ? ? ? ? ? ? ?]; reflexivity.

(** X18: creating and destroying the scene, assigning the projection center or
    the eye, the timer, a tick of a tween and the completion of an attaching
    tween all leave the mounted layers as they are; so does [onDetatch] with
    a transition while no transition is pending.  Only [onAttach],
    [onDetatch] and what [onDetatch] leaves to a transition change the
    stage. *)
Theorem stage_changes_only_by_attach_and_detach (st : World) :
  (forall i,
     match i with
     | call_onAttach _ _ _ | call_onDetatch _ _ _ => True
     | _ => stage (snd (invoke i st)) = stage st
     end)
  /\ (forall t, stage (snd (run_timer t st)) = stage st)
  /\ (forall o val, stage (snd (tween_update o val st)) = stage st)
  /\ (forall o, tween_kind o = attaching -> stage (snd (tween_done_closure o st)) = stage st)
  /\ (_cancelTweening (this st) = None ->
      forall transition duration done,
        stage (snd (onDetatch (Some transition) duration done st)) = stage st).
Proof.
  split; [|split; [|split; [|split]]].
  - intros [|transition duration done| | |transition duration done| | |center|eye];
      try exact I; revert st;
      match goal with
      | |- forall st, stage (snd (?m st)) = stage st =>
          change (respects same_stage m)
      end;
      js_unfold_all; respects_walk same_stage_leaf.
  - intros t. revert st.
    change (respects same_stage (run_timer t)).
    js_unfold_all. respects_walk same_stage_leaf.
  - intros o val. revert st.
    change (respects same_stage (tween_update o val)).
    js_unfold_all. respects_walk same_stage_leaf.
  - intros o Hk. revert st.
    change (respects same_stage (tween_done_closure o)).
    js_unfold_all. rewrite Hk. respects_walk same_stage_leaf.
  - intros Hnone transition duration done.
    destruct st as [[] ? ? ? ? ? ? ? ? ? ?]. js_eval_in Hnone. subst. reflexivity.
Qed.

(** *** A scene fresh from [fromJSON] *)

Section DeserializedScene.

Context {LevelData LinkData InfoData : Type}.
Variable Level_fromJSON : LevelData -> Level.
Variable LinkHotspot_fromJSON : Player -> LinkData -> Hotspot Node Position.
Variable InfoHotspot_fromJSON : Player -> InfoData -> Hotspot Node Position.

#[local] Abbreviation Scene_of_descriptor :=
  (fromJSON_object Level_fromJSON LinkHotspot_fromJSON InfoHotspot_fromJSON).

(** X19: before [onCreate] a scene made by [fromJSON] has no view and no hotspot
    container: [onAttach], [onDetatch] without a transition, [onDestroy] and
    both setters end in a [TypeError] and leave the world as it is.
    [onDetatch] with a transition does not: it returns normally, having
    started a tween and stored its cancellation function. *)
Theorem lifecycle_before_onCreate_throws (player : Player)
    (value : ISceneData.t LevelData LinkData InfoData) (st : World) :
  this st = Scene_of_descriptor player value ->
  (forall transition duration done,
     onAttach transition duration done st = (Throw TypeError, st))
  /\ (forall duration done, onDetatch None duration done st = (Throw TypeError, st))
  /\ onDestroy st = (Throw TypeError, st)
  /\ (forall center, set_projectionCenter center st = (Throw TypeError, st))
  /\ (forall eye, set_eye eye st = (Throw TypeError, st))
  /\ (forall transition duration done,
        exists st',
          onDetatch (Some transition) duration done st = (Normal tt, st')
          /\ _cancelTweening (this st') = Some (unused (tweens st))
          /\ tweens st' =
               <[unused (tweens st) := mkTween duration detaching transition done Running]>
                 (tweens st)
          /\ stage st' = stage st).
Proof.
  intros Hthis. destruct st as [sc gs vs ss ts ls cs sg tm tw cl].
  js_eval_in Hthis. subst sc. unfold fromJSON_object. destruct player as [path m].
  split; [intros; destruct m; reflexivity|].
  split; [intros; reflexivity|]. split; [reflexivity|].
  split; [intros; reflexivity|]. split; [intros []; reflexivity|].
  intros transition duration done. eexists. split; [reflexivity|].
  repeat split; reflexivity.
Qed.

(** X20: from the descriptor to the engine: [onCreate] on a scene made by
    [fromJSON] returns [true]; the geometry is made of the descriptor's
    levels, each read by [Level.fromJSON], in their order; both views start
    from the descriptor's yaw and pitch with roll 0 and field of view 90;
    and the hotspot container holds the descriptor's link hotspots followed
    by its info hotspots, each read for the given player. *)
Theorem fromJSON_then_onCreate (player : Player)
    (value : ISceneData.t LevelData LinkData InfoData) (st : World) :
  this st = Scene_of_descriptor player value ->
  exists st' own,
    onCreate st = (Normal true, st')
    /\ created st' own
    /\ geometries st' !! geometry_of own
       = Some (mkGeometry (map Level_fromJSON (ISceneData.levels value)))
    /\ parameters <$> views st' !! view1 own =
         Some (Vector4.mk (ISceneData.yaw (ISceneData.initialViewParameters value))
                 (ISceneData.pitch (ISceneData.initialViewParameters value)) 0 90)
    /\ parameters <$> views st' !! view2 own =
         Some (Vector4.mk (ISceneData.yaw (ISceneData.initialViewParameters value))
                 (ISceneData.pitch (ISceneData.initialViewParameters value)) 0 90)
    /\ hotspots <$> containers st' !! container_of own =
         Some (map anchor (map (LinkHotspot_fromJSON player) (ISceneData.linkHotspots value)) ++
               map anchor (map (InfoHotspot_fromJSON player) (ISceneData.infoHotspots value)))
    /\ _player (this st') = player.
Proof.
  intros Hthis.
  assert (Hc : constructed (this st))
    by (rewrite Hthis; unfold constructed, fromJSON_object; simpl; eauto).
  destruct (onCreate_result st Hc) as (st' & own & Hrun & Hcr & Hb).
  exists st', own. split; [exact Hrun|]. split; [exact Hcr|].
  rewrite (creates_geometries _ _ _ Hb), (creates_views _ _ _ Hb),
    (creates_containers _ _ _ Hb), (creates_player _ _ _ Hb), Hthis.
  pose proof (created_views_differ _ _ Hcr) as Hne.
  rewrite lookup_insert_eq, (lookup_insert_ne _ (view2 own) (view1 own)) by congruence.
  rewrite !lookup_insert_eq, map_app. repeat split.
Qed.

End DeserializedScene.

(** *** Building a layer *)

(** The pair set [p] after [p.primary = v] for the left eye, or
    [p.secondary = v] for the right one. *)
Definition slot {T} (eye : Eye.t) (v : T) (p : PairSet.t T) : PairSet.t T :=
  match eye with
  | Eye.left => PairSet.set_primary v p
  | Eye.right => PairSet.set_secondary v p
  end.

(** X21: [createLayer], on a scene that has its pair sets, makes one source, one
    texture store and one layer, all new to the engine: the source reads the
    eye's URLs, the store and the layer are on the scene's geometry, the
    layer is on the given view with the given rectangle, and its first level
    is pinned.  It puts the three in the eye's slot of their pair sets (the
    primary slot for [left], the secondary for [right]) and leaves the other
    slot, the views and the stage as they are. *)
Theorem createLayer_fills_the_eye_slots (st : World) (view : option nat) (eye : Eye.t)
    (rect : Rect) (sr tx ly : PairSet.t nat) :
  _sources (this st) = Some sr ->
  _textureStores (this st) = Some tx ->
  _layers (this st) = Some ly ->
  exists st' s t l,
    createLayer view eye rect st = (Normal tt, st')
    /\ sources st !! s = None
    /\ textureStores st !! t = None
    /\ layers st !! l = None
    /\ sources st' = <[s := mkSource (tile_url st eye) (preview_url st eye)]> (sources st)
    /\ textureStores st' = <[t := mkTextureStore (_geometry (this st)) s]> (textureStores st)
    /\ layers st' = <[l := mkLayer s (_geometry (this st)) view t rect true]> (layers st)
    /\ calls st' = calls st ++ [layer_pinFirstLevel l]
    /\ _sources (this st') = Some (slot eye s sr)
    /\ _textureStores (this st') = Some (slot eye t tx)
    /\ _layers (this st') = Some (slot eye l ly)
    /\ views st' = views st
    /\ stage st' = stage st.
Proof.
  intros Hs Ht Hl.
  destruct st as [[i n lv fs ivp lh ih p g pc vw hc sr0 tx0 ly0 ct] gs vs ss ts ls cs sg tm tw cl].
  js_eval_in Hs. js_eval_in Ht. js_eval_in Hl. subst.
  destruct p as [path m].
  exists (snd (createLayer view eye rect
    (mkWorld (mkScene i n lv fs ivp lh ih (mkPlayer path m) g pc vw hc (Some sr) (Some tx)
       (Some ly) ct) gs vs ss ts ls cs sg tm tw cl))).
  exists (unused ss), (unused ts), (unused ls).
  destruct eye; js_eval; rewrite alter_insert_eq;
    (split; [reflexivity|]);
    (split; [apply unused_None|]); (split; [apply unused_None|]);
    (split; [apply unused_None|]);
    repeat split; reflexivity.
Qed.

(** *** The assigned projection center and a stereoscopic attach *)

(** X22: the setter stores nothing, and a stereoscopic [onAttach] sets the
    primary view from the stored center: after [projectionCenter = center]
    and then [onAttach] in stereoscopic mode the primary view has the stored
    center's x-offset again, while the secondary view still has [-center.x]. *)
Theorem onAttach_stereoscopic_overrides_assigned_center (st : World) (own : Owned)
    (eye : Eye.t) (stored center : Vector4.t) (transition : option Callback)
    (duration : option number) (done : option Callback) :
  detached st own ->
  mode (_player (this st)) = StereoscopicMode eye ->
  _projectionCenter (this st) = Some stored ->
  exists st1 st2,
    set_projectionCenter center st = (Normal tt, st1)
    /\ onAttach transition duration done st1 = (Normal tt, st2)
    /\ projectionCenterX <$> views st2 !! view1 own = Some (Vector4.x stored)
    /\ projectionCenterX <$> views st2 !! view2 own = Some (- Vector4.x center)%float.
Proof.
  intros (Hc & _ & _) Hm Hcenter. created_cases st own Hc.
  destruct p as [path m]. simpl in Hm. js_eval_in Hcenter. subst m.
  injection Hcenter as ->.
  destruct eye; destruct transition as [t|];
    try destruct done as [f|]; try destruct ct as [h|]; js_run;
    (eexists; eexists; split; [reflexivity|]); js_run;
    (split; [reflexivity|]); js_eval;
    split; js_run; reflexivity.
Qed.

(** *** Who writes the resources *)

(** The scene's resource fields are as they were, and the engine has the
    geometries, sources and texture stores it had and views, layers and
    hotspot containers under the same identities. *)
Definition same_resources : relation World := fun st st' =>
  _geometry (this st') = _geometry (this st)
  /\ _views (this st') = _views (this st)
  /\ _sources (this st') = _sources (this st)
  /\ _textureStores (this st') = _textureStores (this st)
  /\ _layers (this st') = _layers (this st)
  /\ _hotspotContainer (this st') = _hotspotContainer (this st)
  /\ geometries st' = geometries st
  /\ sources st' = sources st
  /\ textureStores st' = textureStores st
  /\ dom (views st') = dom (views st)
  /\ dom (layers st') = dom (layers st)
  /\ dom (containers st') = dom (containers st).

#[local] Instance same_resources_preorder : PreOrder same_resources.
Proof.
  split.
  - intros st. repeat split.
  - intros a b c (H1 & H2 & H3 & H4 & H5 & H6 & H7 & H8 & H9 & H10 & H11 & H12)
      (K1 & K2 & K3 & K4 & K5 & K6 & K7 & K8 & K9 & K10 & K11 & K12).
    repeat split; congruence.
Qed.

Ltac same_resources_leaf :=
  intros [[] ? ? ? ? ? ? ? ? ? ?]; unfold same_resources; js_eval;
  rewrite ?dom_alter_L; solve [repeat split].

(** X23: only [onCreate] and [onDestroy] write the scene's resource fields, and
    only [onCreate] makes engine objects.  [onAttach], [onDetatch], the
    empty [onResume], [onResize] and [onPause], both setters, the timer, a
    tick of a tween and the completion closure of a tween neither allocate
    nor release: they leave every resource field and the engine's set of
    objects as they are, however they end. *)
Theorem resources_change_only_by_onCreate_and_onDestroy (st : World) :
  (forall i,
     match i with
     | call_onCreate | call_onDestroy => True
     | _ => same_resources st (snd (invoke i st))
     end)
  /\ (forall t, same_resources st (snd (run_timer t st)))
  /\ (forall o val, same_resources st (snd (tween_update o val st)))
  /\ (forall o, same_resources st (snd (tween_done_closure o st))).
Proof.
  split; [|split; [|split]].
  - intros [|transition duration done| | |transition duration done| | |center|eye];
      try exact I; revert st;
      match goal with
      | |- forall st, same_resources st (snd (?m st)) =>
          change (respects same_resources m)
      end;
      js_unfold_all; respects_walk same_resources_leaf.
  - intros t. revert st.
    change (respects same_resources (run_timer t)).
    js_unfold_all. respects_walk same_resources_leaf.
  - intros o val. revert st.
    change (respects same_resources (tween_update o val)).
    js_unfold_all. respects_walk same_resources_leaf.
  - intros o. revert st.
    change (respects same_resources (tween_done_closure o)).
    js_unfold_all. respects_walk same_resources_leaf.
Qed.

End SceneModel.

(** * A scene to run

    The scenario of the spec: a descriptor with id [hall], face size 1024,
    one level, initial view (0, 0), to which one link hotspot is added.
    Levels are left opaque; a hotspot's node is named by a number and placed
    at a (yaw, pitch). *)

Definition hall_json :
    ISceneData.t unit (Hotspot nat (number * number)) (Hotspot nat (number * number)) :=
  ISceneData.mk "hall" "Hall" [tt] 1024
    (ISceneData.mkViewParameters 0 0 None (Some 1.5%float))
    [mkHotspot 7 (0.25%float, 0%float)] [].

(** An [FS.path] that hands its argument back. *)
Definition path_as_given (p : JsString) : JsString := p.

Definition hall (player : Player) : Scene :=
  fromJSON_object (fun _ => tt) (fun _ h => h) (fun _ h => h) player hall_json.

(** A player in panorama mode with no stage path, and one in stereoscopic
    mode whose stage path is [media/]. *)
Definition panorama_player : Player := mkPlayer (js_string "") PanoramaMode.

Definition stereo_player : Player :=
  mkPlayer (js_string "media/") (StereoscopicMode Eye.right).

(** The hall after [onCreate], for either player. *)
Definition hall_created (player : Player) : World :=
  Eval vm_compute in snd (onCreate path_as_given (initial (hall player))).

Definition hall_owned : Owned := mkOwned 0 0 1 0 1 0 1 0 1 0.

(** The hall attached without a transition. *)
Definition hall_attached (player : Player) : World :=
  Eval vm_compute in snd (onAttach None None None (hall_created player)).

(** The hall while its attaching transition (callback 4, over 300 ms) is in
    flight. *)
Definition hall_attaching : World :=
  Eval vm_compute in
    snd (onAttach (Some 4) (Some 300%float) None (hall_created stereo_player)).

Example hall_initialViewParameters (player : Player) :
  ISceneData.fov (ISceneData.initialViewParameters hall_json) = Some 1.5%float
  /\ _initialViewParameters (hall player) = Vector4.mk 0 0 0 90.
Proof. split; reflexivity. Qed.

(** The scenario's end: attached in panorama mode without a transition, the
    hall has one layer mounted, at full width, and a visible hotspot
    container. *)
Example hall_attached_in_panorama :
  stage (hall_attached panorama_player) = [0]
  /\ effects_rect <$> layers (hall_attached panorama_player) !! 0
     = Some (mkRect (Some 1%float) None)
  /\ visible <$> containers (hall_attached panorama_player) !! 0 = Some true
  /\ hotspots <$> containers (hall_attached panorama_player) !! 0
     = Some [(7, (0.25%float, 0%float))].
Proof. repeat split; vm_compute; reflexivity. Qed.

Lemma hall_is_uninitialized (player : Player) : uninitialized (this (initial (hall player))).
Proof. repeat split. Qed.

Lemma hall_is_created (player : Player) : created (hall_created player) hall_owned.
Proof.
  split; try reflexivity; try (vm_compute; discriminate);
    vm_compute; eexists; reflexivity.
Qed.

Lemma hall_is_detached (player : Player) : detached (hall_created player) hall_owned.
Proof. split; [apply hall_is_created | split; apply not_elem_of_nil]. Qed.

Lemma hall_is_attached (player : Player) : attached (hall_attached player) hall_owned.
Proof.
  split.
  - destruct player as [path [|[]]];
      (split; try reflexivity; try (vm_compute; discriminate);
       vm_compute; eexists; reflexivity).
  - destruct player as [path [|[]]]; simpl; apply list_elem_of_In; simpl; tauto.
Qed.

Lemma hall_attaching_is_created : created hall_attaching hall_owned.
Proof.
  split; try reflexivity; try (vm_compute; discriminate);
    vm_compute; eexists; reflexivity.
Qed.


Lemma limiters_differ : STEREOSCOPIC_LIMITER <> PANORAMA_LIMITER.
Proof.
  intros H.
  apply (f_equal (fun l => match l with traditional _ fov => PrimFloat.ltb fov 2 end)) in H.
  vm_compute in H. discriminate.
Qed.

(** ** The claims on the hall *)

Lemma onCreate_builds_two_views_witness :
  uninitialized (this (initial (hall stereo_player)))
  /\ exists st' v1 v2,
       onCreate path_as_given (initial (hall stereo_player)) = (Normal true, st')
       /\ _views (this st') = Some (PairSet.of_pair v1 v2)
       /\ v1 <> v2
       /\ views st' !! v1 = Some (mkView PANORAMA_LIMITER 0 (Vector4.mk 0 0 0 90))
       /\ views st' !! v2 = Some (mkView STEREOSCOPIC_LIMITER 0 (Vector4.mk 0 0 0 90)).
Proof.
  split; [apply hall_is_uninitialized|].
  destruct (onCreate_builds_two_views path_as_given (initial (hall stereo_player))
              (hall_is_uninitialized stereo_player))
    as (st' & v1 & v2 & Hrun & Hviews & Hne & _ & _ & _ & Hv1 & Hv2).
  exists st', v1, v2. repeat split; assumption.
Defined.

(** C1 fails as stated: after [onCreate] the secondary view of the hall has
    the stereoscopic limiter, which is not the panorama limiter. *)
Lemma onCreate_secondary_view_has_stereoscopic_limiter :
  fst (onCreate path_as_given (initial (hall panorama_player))) = Normal true
  /\ _views (this (hall_created panorama_player)) = Some (PairSet.of_pair 0 1)
  /\ limiter <$> views (hall_created panorama_player) !! 0 = Some PANORAMA_LIMITER
  /\ limiter <$> views (hall_created panorama_player) !! 1 = Some STEREOSCOPIC_LIMITER
  /\ STEREOSCOPIC_LIMITER <> PANORAMA_LIMITER.
Proof.
  split; [vm_compute; reflexivity|]. split; [reflexivity|].
  split; [reflexivity|]. split; [reflexivity|]. exact limiters_differ.
Qed.

(** C2 fails on the code: with the stage path [media/] configured the tile
    and preview URLs are built on the default [assets/tiles], and with no
    stage path (the empty string) they are built on [tiles]. *)
Lemma createLayer_base_path_is_inverted :
  basePath path_as_given (js_string "media/") = "assets/tiles"
  /\ basePath path_as_given (js_string "") = "tiles"
  /\ sources (hall_created stereo_player) !! 0
     = Some (mkSource "assets/tiles/hall/left/{z}/{f}/{y}/{x}.jpg"
               "assets/tiles/hall/left/preview.jpg")
  /\ sources (hall_created stereo_player) !! 1
     = Some (mkSource "assets/tiles/hall/right/{z}/{f}/{y}/{x}.jpg"
               "assets/tiles/hall/right/preview.jpg")
  /\ sources (hall_created panorama_player) !! 0
     = Some (mkSource "tiles/hall/left/{z}/{f}/{y}/{x}.jpg"
               "tiles/hall/left/preview.jpg").
Proof. repeat split; vm_compute; reflexivity. Qed.

(** *** The descriptor of the hall as a text *)

















Lemma projectionCenter_setter_mirrors_x_witness :
  created (hall_created stereo_player) hall_owned
  /\ exists st',
       set_projectionCenter (Vector4.mk (-0.03125)%float 0 0 0) (hall_created stereo_player)
         = (Normal tt, st')
       /\ projectionCenterX <$> views st' !! 0 = Some (-0.03125)%float
       /\ projectionCenterX <$> views st' !! 1 = Some (- (-0.03125))%float.
Proof.
  split; [apply hall_is_created|].
  apply (projectionCenter_setter_mirrors_x (hall_created stereo_player) hall_owned
           (Vector4.mk (-0.03125)%float 0 0 0)).
  apply hall_is_created.
Defined.

Lemma onAttach_mounts_by_mode_witness :
  detached (hall_created panorama_player) hall_owned
  /\ exists st',
       onAttach (Some 4) (Some 300%float) (Some 5) (hall_created panorama_player)
         = (Normal tt, st')
       /\ stage st' = [0]
       /\ effects_rect <$> layers st' !! 0 = Some (mkRect (Some 1%float) None)
       /\ projectionCenterX <$> views st' !! 0 = Some 0%float
       /\ projectionCenterX <$> views st' !! 1 = Some 0%float
       /\ container_rect <$> containers st' !! 0 = Some (mkRect (Some 1%float) None).
Proof.
  split; [apply hall_is_detached|].
  exact (onAttach_mounts_by_mode (hall_created panorama_player) hall_owned
           (Some 4) (Some 300%float) (Some 5) (hall_is_detached panorama_player)).
Defined.

Lemma onAttach_without_transition_is_synchronous_witness :
  detached (hall_created stereo_player) hall_owned
  /\ exists st',
       onAttach None None (Some 5) (hall_created stereo_player) = (Normal tt, st')
       /\ (exists cs, calls st' = calls (hall_created stereo_player) ++ cs ++
             [container_show 0; call_done 5])
       /\ visible <$> containers st' !! 0 = Some true
       /\ tweens st' = tweens (hall_created stereo_player)
       /\ _cancelTweening (this st') = _cancelTweening (this (hall_created stereo_player)).
Proof.
  split; [apply hall_is_detached|].
  exact (onAttach_without_transition_is_synchronous (hall_created stereo_player)
           hall_owned None (Some 5) (hall_is_detached stereo_player)).
Defined.

(** C6 fails as stated: detaching the attached hall without a transition
    changes a resource of the scene besides the stage, for the hotspot
    container, visible before, is hidden after; and detaching it with a
    transition returns with the primary layer still on the stage. *)
Lemma onDetatch_hides_the_hotspot_container :
  fst (onDetatch None None None (hall_attached panorama_player)) = Normal tt
  /\ _hotspotContainer (this (hall_attached panorama_player)) = Some 0
  /\ visible <$> containers (hall_attached panorama_player) !! 0 = Some true
  /\ visible <$>
       containers (snd (onDetatch None None None (hall_attached panorama_player))) !! 0
     = Some false
  /\ fst (onDetatch (Some 4) None None (hall_attached panorama_player)) = Normal tt
  /\ _layers (this (hall_attached panorama_player)) = Some (PairSet.of_pair 0 1)
  /\ stage (snd (onDetatch (Some 4) None None (hall_attached panorama_player))) = [0].
Proof. repeat split; vm_compute; reflexivity. Qed.

Lemma onDetatch_unmounts_and_hides_witness :
  attached (hall_attached panorama_player) hall_owned
  /\ stage (hall_attached panorama_player) = [0]
  /\ (exists st',
        onDetatch None None (Some 5) (hall_attached panorama_player) = (Normal tt, st')
        /\ detaches hall_owned (Some 5) (hall_attached panorama_player) st'
        /\ this st' = this (hall_attached panorama_player))
  /\ (exists st' h st'',
        onDetatch (Some 4) None (Some 5) (hall_attached panorama_player) = (Normal tt, st')
        /\ stage st' = [0]
        /\ tweens st' = <[h := mkTween None detaching 4 (Some 5) Running]> ∅
        /\ this st' = set_cancelTweening (Some h) (this (hall_attached panorama_player))
        /\ tween_done_closure (mkTween None detaching 4 (Some 5) Running) st'
           = (Normal tt, st'')
        /\ (layer1 hall_owned ∉ stage st'')
        /\ this st'' = set_cancelTweening None (this (hall_attached panorama_player))).
Proof.
  split; [apply hall_is_attached|]. split; [reflexivity|].
  destruct (onDetatch_unmounts_and_hides (hall_attached panorama_player) hall_owned
              None (Some 5) (hall_is_attached panorama_player)) as (Hnow & Hlater).
  split.
  - destruct Hnow as (st' & Hrun & Hd & Hthis & _).
    exists st'. split; [exact Hrun|]. split; [exact Hd | exact Hthis].
  - destruct (Hlater 4)
      as (st' & h & st'' & Hrun & Hsg & _ & _ & _ & _ & _ & _ & _ & _ & Htw & _ & Hthis
          & Hrun' & Hd & Hthis' & _).
    exists st', h, st''. split; [exact Hrun|]. split; [exact Hsg|].
    split; [exact Htw|]. split; [exact Hthis|]. split; [exact Hrun'|].
    split; [exact (proj1 (proj2 Hd)) | exact Hthis'].
Defined.


Lemma onDestroy_releases_in_order_witness :
  created (hall_attached stereo_player) hall_owned
  /\ exists st',
       onDestroy (hall_attached stereo_player) = (Normal tt, st')
       /\ calls st' = calls (hall_attached stereo_player) ++
            [ store_destroy 0; store_destroy 1; view_destroy 0; view_destroy 1;
              layer_destroy 0; layer_destroy 1; container_destroy 0 ]
       /\ _geometry (this st') = None
       /\ _views (this st') = None
       /\ _sources (this st') = None
       /\ _textureStores (this st') = None
       /\ _layers (this st') = None
       /\ _hotspotContainer (this st') = None.
Proof.
  split; [exact (proj1 (hall_is_attached stereo_player))|].
  exact (onDestroy_releases_in_order (hall_attached stereo_player) hall_owned
           (proj1 (hall_is_attached stereo_player))).
Defined.

(** ** The rest of the lifecycle on the hall *)

Lemma hall_is_constructed (player : Player) : constructed (this (initial (hall player))).
Proof. apply uninitialized_constructed, hall_is_uninitialized. Qed.

Lemma hall_secondary_layer :
  layers (hall_created stereo_player) !! layer_of hall_owned Eye.right
  = Some (mkLayer 1 (Some 0) (Some 1) 1 (mkRect (Some 0.5%float) (Some 0.5%float)) true).
Proof. vm_compute. reflexivity. Qed.

Lemma set_eye_binds_container_to_layer_witness :
  created (hall_created stereo_player) hall_owned
  /\ layers (hall_created stereo_player) !! layer_of hall_owned Eye.right
     = Some (mkLayer 1 (Some 0) (Some 1) 1 (mkRect (Some 0.5%float) (Some 0.5%float)) true)
  /\ exists st',
       set_eye Eye.right (hall_created stereo_player) = (Normal tt, st')
       /\ container_rect <$> containers st' !! 0
          = Some (mkRect (Some 0.5%float) (Some 0.5%float)).
Proof.
  split; [apply hall_is_created|]. split; [exact hall_secondary_layer|].
  destruct (set_eye_binds_container_to_layer (hall_created stereo_player) hall_owned
              Eye.right _ (hall_is_created stereo_player) hall_secondary_layer)
    as (st' & Hrun & _ & _ & Hrect & _).
  exists st'. split; assumption.
Defined.

Lemma onAttach_limits_primary_view_by_mode_witness :
  detached (hall_created stereo_player) hall_owned
  /\ exists st',
       onAttach None None None (hall_created stereo_player) = (Normal tt, st')
       /\ limiter <$> views st' !! 0 = Some STEREOSCOPIC_LIMITER
       /\ timers st' = [resetViewParameters].
Proof.
  split; [apply hall_is_detached|].
  destruct (onAttach_limits_primary_view_by_mode (hall_created stereo_player) hall_owned
              None None None (hall_is_detached stereo_player))
    as (st' & Hrun & Hlim & _ & _ & _ & Htm).
  exists st'. split; [exact Hrun|]. split; [exact Hlim | exact Htm].
Defined.

Lemma onAttach_stereoscopic_layout_witness :
  detached (hall_created stereo_player) hall_owned
  /\ mode (_player (this (hall_created stereo_player))) = StereoscopicMode Eye.right
  /\ _projectionCenter (this (hall_created stereo_player)) = Some (Vector4.mk2 0 0)
  /\ exists st',
       onAttach None None None (hall_created stereo_player) = (Normal tt, st')
       /\ effects_rect <$> layers st' !! 0 = Some (mkRect (Some 0.5%float) None)
       /\ container_rect <$> containers st' !! 0
          = effects_rect <$> layers (hall_created stereo_player) !! 1
       /\ projectionCenterX <$> views st' !! 0 = Some 0%float.
Proof.
  split; [apply hall_is_detached|]. split; [reflexivity|]. split; [reflexivity|].
  destruct (onAttach_stereoscopic_layout (hall_created stereo_player) hall_owned
              Eye.right (Vector4.mk2 0 0) None None None
              (hall_is_detached stereo_player) eq_refl eq_refl)
    as (st' & Hrun & Hrect & _ & Hcr & Hx & _).
  exists st'. repeat split; assumption.
Defined.

Lemma timer_resets_view_parameters_witness :
  created (hall_attached stereo_player) hall_owned
  /\ exists st',
       run_timer resetViewParameters (hall_attached stereo_player) = (Normal tt, st')
       /\ parameters <$> views st' !! 0 = Some (Vector4.mk 0 0 0 90)
       /\ parameters <$> views st' !! 1 = Some (Vector4.mk 0 0 0 90).
Proof.
  split; [exact (proj1 (hall_is_attached stereo_player))|].
  destruct (timer_resets_view_parameters (hall_attached stereo_player) hall_owned
              (proj1 (hall_is_attached stereo_player)))
    as (st' & Hrun & Hp1 & Hp2 & _).
  exists st'. repeat split; assumption.
Defined.

Lemma timer_after_onDestroy_throws_witness :
  created (hall_attached panorama_player) hall_owned
  /\ timers (hall_attached panorama_player) = [resetViewParameters]
  /\ exists st',
       onDestroy (hall_attached panorama_player) = (Normal tt, st')
       /\ timers st' = timers (hall_attached panorama_player)
       /\ forall t, run_timer t st' = (Throw TypeError, st').
Proof.
  split; [exact (proj1 (hall_is_attached panorama_player))|]. split; [reflexivity|].
  exact (timer_after_onDestroy_throws (hall_attached panorama_player) hall_owned
           (proj1 (hall_is_attached panorama_player))).
Defined.

Lemma destroyed_scene_rejects_calls_witness :
  created (hall_created panorama_player) hall_owned
  /\ exists st',
       onDestroy (hall_created panorama_player) = (Normal tt, st')
       /\ onAttach None None None st' = (Throw TypeError, st')
       /\ onDestroy st' = (Throw TypeError, st').
Proof.
  split; [apply hall_is_created|].
  destruct (destroyed_scene_rejects_calls (hall_created panorama_player) hall_owned
              (hall_is_created panorama_player))
    as (st' & Hrun & Hattach & _ & Hdestroy & _).
  exists st'. split; [exact Hrun|]. split; [apply Hattach | exact Hdestroy].
Defined.

Lemma onCreate_needs_the_pair_sets_witness :
  created (hall_attached stereo_player) hall_owned
  /\ exists st' st'',
       onDestroy (hall_attached stereo_player) = (Normal tt, st')
       /\ onCreate path_as_given st' = (Throw TypeError, st'')
       /\ _layers (this st'') = None
       /\ stage st'' = [1; 0].
Proof.
  split; [exact (proj1 (hall_is_attached stereo_player))|].
  destruct (onCreate_needs_the_pair_sets path_as_given (hall_attached stereo_player)
              hall_owned (proj1 (hall_is_attached stereo_player)))
    as (st' & st'' & l & Hrun & Hrun' & _ & _ & Hly & _ & _ & _ & _ & _ & _ & Hsg).
  exists st', st''. split; [exact Hrun|]. split; [exact Hrun'|].
  split; [exact Hly | exact Hsg].
Defined.

Lemma onCreate_builds_one_layer_per_eye_witness :
  constructed (this (initial (hall stereo_player)))
  /\ exists st' own,
       onCreate path_as_given (initial (hall stereo_player)) = (Normal true, st')
       /\ effects_rect <$> layers st' !! layer1 own
          = Some (mkRect (Some 0.5%float) (Some 0%float))
       /\ effects_rect <$> layers st' !! layer2 own
          = Some (mkRect (Some 0.5%float) (Some 0.5%float))
       /\ stage st' = [].
Proof.
  split; [apply hall_is_constructed|].
  destruct (onCreate_builds_one_layer_per_eye path_as_given (initial (hall stereo_player))
              (hall_is_constructed stereo_player))
    as (st' & own & Hrun & _ & Hl1 & Hl2 & _ & _ & _ & _ & _ & Hsg & _).
  exists st', own. split; [exact Hrun|].
  rewrite Hl1, Hl2. repeat split. exact Hsg.
Defined.

Lemma onCreate_sources_by_eye_witness :
  constructed (this (initial (hall panorama_player)))
  /\ exists st' s1 s2,
       onCreate path_as_given (initial (hall panorama_player)) = (Normal true, st')
       /\ _sources (this st') = Some (PairSet.of_pair s1 s2)
       /\ tileUrl <$> sources st' !! s1 = Some "tiles/hall/left/{z}/{f}/{y}/{x}.jpg"
       /\ tileUrl <$> sources st' !! s2 = Some "tiles/hall/right/{z}/{f}/{y}/{x}.jpg".
Proof.
  split; [apply hall_is_constructed|].
  destruct (onCreate_sources_by_eye path_as_given (initial (hall panorama_player))
              (hall_is_constructed panorama_player))
    as (st' & s1 & s2 & Hrun & Hs & Hs1 & Hs2).
  exists st', s1, s2. split; [exact Hrun|]. split; [exact Hs|].
  rewrite Hs1, Hs2. split; reflexivity.
Defined.

Lemma onCreate_places_hotspots_in_order_witness :
  constructed (this (initial (hall panorama_player)))
  /\ exists st' c,
       onCreate path_as_given (initial (hall panorama_player)) = (Normal true, st')
       /\ _hotspotContainer (this st') = Some c
       /\ hotspots <$> containers st' !! c = Some [(7, (0.25%float, 0%float))].
Proof.
  split; [apply hall_is_constructed|].
  destruct (onCreate_places_hotspots_in_order path_as_given (initial (hall panorama_player))
              (hall_is_constructed panorama_player))
    as (st' & c & v1 & v2 & Hrun & Hc & _ & _ & _ & _ & Hhs & _).
  exists st', c. split; [exact Hrun|]. split; [exact Hc | exact Hhs].
Defined.

Lemma onCreate_again_abandons_resources_witness :
  created (hall_created panorama_player) hall_owned
  /\ exists st' own',
       onCreate path_as_given (hall_created panorama_player) = (Normal true, st')
       /\ created st' own'
       /\ view1 own' <> 0 /\ view1 own' <> 1
       /\ layers st' !! 0 = layers (hall_created panorama_player) !! 0.
Proof.
  split; [apply hall_is_created|].
  destruct (onCreate_again_abandons_resources path_as_given (hall_created panorama_player)
              hall_owned (hall_is_created panorama_player))
    as (st' & own' & Hrun & Hc & H1 & H2 & _ & _ & _ & _ & _ & _ & _ & _ & _ & Hl & _).
  exists st', own'. split; [exact Hrun|]. split; [exact Hc|].
  split; [exact H1|]. split; [exact H2 | exact Hl].
Defined.

Lemma attach_then_detach_restores_stage_witness :
  detached (hall_created stereo_player) hall_owned
  /\ exists st' st'',
       onAttach None None None (hall_created stereo_player) = (Normal tt, st')
       /\ attached st' hall_owned
       /\ onDetatch None None None
            (upd_this (set_player (mkPlayer (stagePath (_player (this st'))) PanoramaMode)) st')
          = (Normal tt, st'')
       /\ detached st'' hall_owned
       /\ stage st'' = [].
Proof.
  split; [apply hall_is_detached|].
  destruct (attach_then_detach_restores_stage (hall_created stereo_player) hall_owned
              None None None None PanoramaMode (hall_is_detached stereo_player))
    as (st' & st'' & Hrun & Ha & Hrun' & Hd & Hsg & _).
  exists st', st''. split; [exact Hrun|]. split; [exact Ha|].
  split; [exact Hrun'|]. split; [exact Hd | exact Hsg].
Defined.

Lemma onAttach_with_transition_shows_on_completion_witness :
  detached (hall_created panorama_player) hall_owned
  /\ _cancelTweening (this (hall_created panorama_player)) = None
  /\ exists st' h st'',
       onAttach (Some 4) (Some 300%float) (Some 5) (hall_created panorama_player)
         = (Normal tt, st')
       /\ _cancelTweening (this st') = Some h
       /\ visible <$> containers st' !! 0
          = visible <$> containers (hall_created panorama_player) !! 0
       /\ tween_done_closure (mkTween (Some 300%float) attaching 4 (Some 5) Running) st'
          = (Normal tt, st'')
       /\ calls st'' = calls st' ++ [container_show 0; call_done 5]
       /\ _cancelTweening (this st'') = None.
Proof.
  split; [apply hall_is_detached|]. split; [reflexivity|].
  destruct (onAttach_with_transition_shows_on_completion (hall_created panorama_player)
              hall_owned 4 (Some 300%float) (Some 5) (hall_is_detached panorama_player)
              eq_refl)
    as (st' & h & st'' & Hrun & Hh & _ & Hvis & _ & Hrun' & Hcalls & _ & Hnone & _).
  exists st', h, st''. repeat split; assumption.
Defined.

Lemma onDestroy_leaves_transition_running_witness :
  created hall_attaching hall_owned
  /\ _cancelTweening (this hall_attaching) = Some 0
  /\ exists st',
       onDestroy hall_attaching = (Normal tt, st')
       /\ _cancelTweening (this st') = _cancelTweening (this hall_attaching)
       /\ tween_done_closure (mkTween (Some 300%float) attaching 4 None Running) st'
          = (Throw TypeError, upd_this (set_cancelTweening None) st').
Proof.
  split; [exact hall_attaching_is_created|]. split; [reflexivity|].
  destruct (onDestroy_leaves_transition_running hall_attaching hall_owned
              hall_attaching_is_created)
    as (st' & Hrun & _ & Hheld & Hdone).
  exists st'. split; [exact Hrun|]. split; [exact Hheld | apply Hdone].
Defined.

Lemma onDestroy_leaves_layers_mounted_witness :
  attached (hall_attached stereo_player) hall_owned
  /\ stage (hall_attached stereo_player) = [1; 0]
  /\ exists st',
       onDestroy (hall_attached stereo_player) = (Normal tt, st')
       /\ stage st' = stage (hall_attached stereo_player).
Proof.
  split; [apply hall_is_attached|]. split; [reflexivity|].
  destruct (onDestroy_leaves_layers_mounted (hall_attached stereo_player) hall_owned
              (hall_is_attached stereo_player))
    as (st' & Hrun & Hsg & _).
  exists st'. split; assumption.
Defined.

Lemma descriptor_is_constant_witness :
  rtc (step path_as_given) (hall_created stereo_player)
    (snd (invoke path_as_given call_onDestroy (hall_created stereo_player)))
  /\ get_id (snd (invoke path_as_given call_onDestroy (hall_created stereo_player)))
     = get_id (hall_created stereo_player)
  /\ get_id (hall_created stereo_player) = "hall".
Proof.
  assert (Hsteps : rtc (step path_as_given) (hall_created stereo_player)
            (snd (invoke path_as_given call_onDestroy (hall_created stereo_player))))
    by (apply rtc_once, step_invoke).
  split; [exact Hsteps|]. split; [|reflexivity].
  exact (proj1 (descriptor_is_constant path_as_given _ _ Hsteps)).
Defined.

Lemma stored_projectionCenter_is_constant_witness :
  constructed (this (initial (hall stereo_player)))
  /\ exists st1,
       onCreate path_as_given (initial (hall stereo_player)) = (Normal true, st1)
       /\ get_projectionCenter
            (snd (invoke path_as_given
                    (call_set_projectionCenter (Vector4.mk 0.0625%float 0 0 0)) st1))
          = Some (Vector4.mk2 0 0).
Proof.
  split; [apply hall_is_constructed|].
  destruct (stored_projectionCenter_is_constant path_as_given (initial (hall stereo_player))
              (hall_is_constructed stereo_player))
    as (st1 & Hrun & Hlater).
  exists st1. split; [exact Hrun|]. apply Hlater, rtc_once, step_invoke.
Defined.

Lemma lifecycle_before_onCreate_throws_witness :
  this (initial (hall panorama_player))
  = fromJSON_object (fun _ => tt) (fun _ h => h) (fun _ h => h) panorama_player hall_json
  /\ onAttach None None None (initial (hall panorama_player))
     = (Throw TypeError, initial (hall panorama_player))
  /\ onDestroy (initial (hall panorama_player))
     = (Throw TypeError, initial (hall panorama_player)).
Proof.
  split; [reflexivity|].
  destruct (lifecycle_before_onCreate_throws (fun _ => tt) (fun _ h => h) (fun _ h => h)
              panorama_player hall_json (initial (hall panorama_player)) eq_refl)
    as (Hattach & _ & Hdestroy & _).
  split; [apply Hattach | exact Hdestroy].
Defined.

Lemma fromJSON_then_onCreate_witness :
  this (initial (hall stereo_player))
  = fromJSON_object (fun _ => tt) (fun _ h => h) (fun _ h => h) stereo_player hall_json
  /\ exists st' own,
       onCreate path_as_given (initial (hall stereo_player)) = (Normal true, st')
       /\ geometries st' !! geometry_of own = Some (mkGeometry [tt])
       /\ hotspots <$> containers st' !! container_of own
          = Some [(7, (0.25%float, 0%float))].
Proof.
  split; [reflexivity|].
  destruct (fromJSON_then_onCreate path_as_given (fun _ => tt) (fun _ h => h)
              (fun _ h => h) stereo_player hall_json (initial (hall stereo_player)) eq_refl)
    as (st' & own & Hrun & _ & Hg & _ & _ & Hhs & _).
  exists st', own. repeat split; assumption.
Defined.

Lemma createLayer_fills_the_eye_slots_witness :
  _sources (this (initial (hall stereo_player))) = Some PairSet.empty
  /\ _textureStores (this (initial (hall stereo_player))) = Some PairSet.empty
  /\ _layers (this (initial (hall stereo_player))) = Some PairSet.empty
  /\ exists st' l,
       createLayer path_as_given None Eye.right (mkRect (Some 0.5%float) (Some 0.5%float))
         (initial (hall stereo_player)) = (Normal tt, st')
       /\ _layers (this st') = Some (PairSet.mk None (Some l))
       /\ calls st' = [layer_pinFirstLevel l].
Proof.
  split; [reflexivity|]. split; [reflexivity|]. split; [reflexivity|].
  destruct (createLayer_fills_the_eye_slots path_as_given (initial (hall stereo_player))
              None Eye.right (mkRect (Some 0.5%float) (Some 0.5%float))
              PairSet.empty PairSet.empty PairSet.empty eq_refl eq_refl eq_refl)
    as (st' & s & t & l & Hrun & _ & _ & _ & _ & _ & _ & Hcalls & _ & _ & Hl & _).
  exists st', l. split; [exact Hrun|]. split; [exact Hl | exact Hcalls].
Defined.

Lemma onAttach_stereoscopic_overrides_assigned_center_witness :
  detached (hall_created stereo_player) hall_owned
  /\ mode (_player (this (hall_created stereo_player))) = StereoscopicMode Eye.right
  /\ _projectionCenter (this (hall_created stereo_player)) = Some (Vector4.mk2 0 0)
  /\ exists st1 st2,
       set_projectionCenter (Vector4.mk 0.0625%float 0 0 0) (hall_created stereo_player)
         = (Normal tt, st1)
       /\ onAttach None None None st1 = (Normal tt, st2)
       /\ projectionCenterX <$> views st2 !! 0 = Some 0%float
       /\ projectionCenterX <$> views st2 !! 1 = Some (- 0.0625)%float.
Proof.
  split; [apply hall_is_detached|]. split; [reflexivity|]. split; [reflexivity|].
  exact (onAttach_stereoscopic_overrides_assigned_center (hall_created stereo_player)
           hall_owned Eye.right (Vector4.mk2 0 0) (Vector4.mk 0.0625%float 0 0 0)
           None None None (hall_is_detached stereo_player) eq_refl eq_refl).
Defined.
